(** * QuestionDetector (AIQuestionDetector.py): a shallow embedding

    The rule-based question classifier of the assistant, imported by the
    window as [ai.question_detector]: [is_question], [extract_questions]
    and [get_question_type], together with the parts of Python's [str]
    and [re] they call. *)

From Stdlib Require Import Ascii String.
From stdpp Require Import gmap strings list.

(** ** Python [str]

    A [str] is a sequence of code points.  The model keeps the code
    points below 256 (type [ascii]); on that range [str.isspace],
    [str.lower] and the case folding of [re.IGNORECASE] are the small
    tables written out below.  Beyond that range [str.lower] and the
    folding of [re.IGNORECASE] are different tables (U+0130 is folded
    to "i" by the one and lowered to "i" and U+0307 by the other), so
    what is proved about letter case is proved for this range only. *)

Abbreviation str := (list ascii).

(** A string literal of the source. *)
Definition py (s : string) : str := list_ascii_of_string s.

Module Str.

(** Code point of a character. *)
Definition ord (c : ascii) : N := N_of_ascii c.

(** The characters [str.strip], [str.split] and the regex class [\s]
    treat as whitespace: TAB..CR, FS..US, SPACE, NEL and NBSP. *)
Definition isspace (c : ascii) : bool :=
  let n := ord c in
  ((9 <=? n) && (n <=? 13) || (28 <=? n) && (n <=? 32)
   || (n =? 133) || (n =? 160))%N.

(** [str.lower] on one character: A-Z, and the capital letters
    U+00C0..U+00DE apart from the multiplication sign U+00D7. *)
Definition lower_chr (c : ascii) : ascii :=
  let n := ord c in
  if ((65 <=? n) && (n <=? 90)
      || (192 <=? n) && (n <=? 222) && negb (n =? 215))%N
  then ascii_of_N (n + 32) else c.

(** [s.lower()] *)
Definition lower (s : str) : str := map lower_chr s.

(** [bool(s)]: a string is truthy when it is not empty. *)
Definition truthy (s : str) : bool :=
  match s with [] => false | _ :: _ => true end.

(** [s.lstrip()] *)
Fixpoint lstrip (s : str) : str :=
  match s with
  | [] => []
  | c :: s' => if isspace c then lstrip s' else s
  end.

(** [s.rstrip()]: a character stays when something after it stays or
    when it is not whitespace itself. *)
Fixpoint rstrip (s : str) : str :=
  match s with
  | [] => []
  | c :: s' =>
      match rstrip s' with
      | [] => if isspace c then [] else [c]
      | r => c :: r
      end
  end.

(** [s.strip()] *)
Definition strip (s : str) : str := rstrip (lstrip s).

(** [s.startswith(p)] and [s.endswith(p)] *)
Definition startswith (s p : str) : bool := bool_decide (p `prefix_of` s).
Definition endswith (s p : str) : bool := bool_decide (p `suffix_of` s).

(** The scanner behind [s.split()]: [cur] is the token being read; a
    separator closes it, and an empty token is never produced. *)
Definition emit (cur : str) (rest : list str) : list str :=
  match cur with [] => rest | _ :: _ => cur :: rest end.

Fixpoint fields_from (sep : ascii -> bool) (cur s : str) : list str :=
  match s with
  | [] => emit cur []
  | c :: s' =>
      if sep c then emit cur (fields_from sep [] s')
      else fields_from sep (cur ++ [c]) s'
  end.

Definition fields (sep : ascii -> bool) (s : str) : list str :=
  fields_from sep [] s.

(** [s.split()]: the maximal runs of non-whitespace characters. *)
Definition split (s : str) : list str := fields isspace s.

End Str.

(** ** Python [re]

    The regular expressions of this module are an optional [^], a body
    without anchors, and an optional [$].  The body is matched with
    derivatives; [search] and [split] are what [Pattern.search] and
    [re.split] compute with them. *)

Module Re.

Inductive atom : Type :=
| Chr (c : ascii)        (* a literal character *)
| Space                  (* \s *)
| Dot                    (* . *)
| OneOf (cs : str).      (* [...] *)

Inductive regex : Type :=
| Void
| Eps
| Atom (a : atom)
| Cat (r1 r2 : regex)
| Alt (r1 r2 : regex)
| Star (r : regex).

(** [r+] *)
Definition Plus (r : regex) : regex := Cat r (Star r).

(** A literal word, one character after the other. *)
Definition word (w : string) : regex :=
  foldr (fun c r => Cat (Atom (Chr c)) r) Eps (py w).

(** [(w1|w2|...)] *)
Definition group (ws : list string) : regex :=
  foldr (fun w r => Alt (word w) r) Void ws.

(** A pattern source: [bol] for a leading [^], [eol] for a trailing [$]. *)
Record expr : Type := Expr { bol : bool; body : regex; eol : bool }.

(** A compiled pattern object, with the IGNORECASE flag it was
    compiled under. *)
Record Pattern : Type := Compiled { source : expr; ignorecase : bool }.

(** [re.compile(pattern, re.IGNORECASE)] *)
Definition compile_IGNORECASE (e : expr) : Pattern := Compiled e true.

(** One character against one atom.  Under IGNORECASE a literal is
    compared after lowercasing both sides; [.] is anything but a line
    feed. *)
Definition atom_match (ic : bool) (a : atom) (x : ascii) : bool :=
  match a with
  | Chr c =>
      if ic then bool_decide (Str.lower_chr x = Str.lower_chr c)
      else bool_decide (x = c)
  | Space => Str.isspace x
  | Dot => negb (bool_decide (x = "010"%char))
  | OneOf cs => bool_decide (x ∈ cs)
  end.

Fixpoint nullable (r : regex) : bool :=
  match r with
  | Void => false
  | Eps => true
  | Atom _ => false
  | Cat r1 r2 => nullable r1 && nullable r2
  | Alt r1 r2 => nullable r1 || nullable r2
  | Star _ => true
  end.

(** What is left of [r] after reading [x]. *)
Fixpoint deriv (ic : bool) (x : ascii) (r : regex) : regex :=
  match r with
  | Void => Void
  | Eps => Void
  | Atom a => if atom_match ic a x then Eps else Void
  | Cat r1 r2 =>
      if nullable r1
      then Alt (Cat (deriv ic x r1) r2) (deriv ic x r2)
      else Cat (deriv ic x r1) r2
  | Alt r1 r2 => Alt (deriv ic x r1) (deriv ic x r2)
  | Star r1 => Cat (deriv ic x r1) (Star r1)
  end.

(** Where [$] holds: at the end of the text, or just before a line
    feed that ends it. *)
Definition at_end (s : str) : bool :=
  match s with
  | [] => true
  | [c] => bool_decide (c = "010"%char)
  | _ => false
  end.

(** Some prefix of [s] is matched by [r] (and ends where [$] holds,
    when the pattern has one). *)
Fixpoint match_here (ic dollar : bool) (r : regex) (s : str) : bool :=
  nullable r && (negb dollar || at_end s)
  || match s with
     | [] => false
     | x :: s' => match_here ic dollar (deriv ic x r) s'
     end.

(** The positions a search tries: every suffix of the text. *)
Fixpoint tails (s : str) : list str :=
  s :: match s with [] => [] | _ :: s' => tails s' end.

(** [bool(p.search(text))]: a match starting at position 0 when the
    pattern begins with [^], at any position otherwise. *)
Definition search (p : Pattern) (text : str) : bool :=
  let e := source p in
  if bol e then match_here (ignorecase p) (eol e) (body e) text
  else existsb (match_here (ignorecase p) (eol e) (body e)) (tails text).

(** [re.split('[cs]+', text)]: the pieces between the maximal runs of
    characters of [cs], the empty pieces before a leading run and after
    a trailing one included.  [in_run] says the previous character was
    a separator, so the piece before this one is already closed. *)
Fixpoint split_from (cs : str) (in_run : bool) (cur s : str) : list str :=
  match s with
  | [] => [cur]
  | c :: s' =>
      if bool_decide (c ∈ cs)
      then (if in_run then split_from cs true [] s'
            else cur :: split_from cs true [] s')
      else split_from cs false (cur ++ [c]) s'
  end.

Definition split (cs : str) (text : str) : list str :=
  split_from cs false [] text.

End Re.

(** ** The detector *)

(** The state of a [QuestionDetector] object. *)
Record QuestionDetector : Type := {
  question_words : gset str;
  question_patterns : list Re.expr;
  compiled_patterns : list Re.Pattern
}.

(** Methods run on the object and either return or raise; the object
    after the call is part of the outcome. *)
Inductive exn : Type := IndexError.

Definition M (A : Type) : Type :=
  QuestionDetector -> (exn + A) * QuestionDetector.

#[global] Instance M_ret : MRet M := fun A x self => (inr x, self).
#[global] Instance M_bind : MBind M := fun A B f m self =>
  match m self with
  | (inr x, self') => f x self'
  | (inl e, self') => (inl e, self')
  end.

(** Reading an attribute of [self]. *)
Definition attr {A : Type} (f : QuestionDetector -> A) : M A :=
  fun self => (inr (f self), self).

Definition raise {A : Type} (e : exn) : M A := fun self => (inl e, self).

(** [l[i]]: raises IndexError out of range. *)
Definition index {A : Type} (l : list A) (i : nat) : M A :=
  match l !! i with
  | Some x => mret x
  | None => raise IndexError
  end.

(** A [for] loop that threads an accumulator through its body. *)
Fixpoint for_each {A B : Type} (l : list A) (acc : B) (f : B -> A -> M B) : M B :=
  match l with
  | [] => mret acc
  | x :: l' => acc' ← f acc x; for_each l' acc' f
  end.

(** The result of a call and the object it leaves. *)
Definition result {A : Type} (m : M A) (self : QuestionDetector) : exn + A :=
  fst (m self).
Definition object {A : Type} (m : M A) (self : QuestionDetector) : QuestionDetector :=
  snd (m self).

(** [QuestionDetector.__init__]: the word set, the five pattern
    sources, and the patterns compiled under IGNORECASE. *)
Definition __init__ : QuestionDetector :=
  let question_words : gset str := {[
    py "what"; py "when"; py "where"; py "who"; py "whom"; py "whose";
    py "which"; py "why"; py "how";
    py "is"; py "are"; py "was"; py "were"; py "do"; py "does"; py "did";
    py "can"; py "could";
    py "will"; py "would"; py "should"; py "shall"; py "may"; py "might";
    py "must";
    py "am"; py "has"; py "have"; py "had" ]} in
  let question_patterns := [
    (* \?$ *)
    Re.Expr false (Re.Atom (Re.Chr "?"%char)) true;
    (* ^(what|when|where|who|whom|whose|which|why|how)\s+ *)
    Re.Expr true
      (Re.Cat (Re.group ["what"; "when"; "where"; "who"; "whom"; "whose";
                         "which"; "why"; "how"]%string)
              (Re.Plus (Re.Atom Re.Space)))
      false;
    (* ^(is|are|was|were|do|does|did|can|could|will|would|should)\s+ *)
    Re.Expr true
      (Re.Cat (Re.group ["is"; "are"; "was"; "were"; "do"; "does"; "did";
                         "can"; "could"; "will"; "would"; "should"]%string)
              (Re.Plus (Re.Atom Re.Space)))
      false;
    (* ^(tell me|explain|describe|define|calculate|solve)\s+ *)
    Re.Expr true
      (Re.Cat (Re.group ["tell me"; "explain"; "describe"; "define";
                         "calculate"; "solve"]%string)
              (Re.Plus (Re.Atom Re.Space)))
      false;
    (* (what|how|why|when|where)\s+.*\?*$ *)
    Re.Expr false
      (Re.Cat (Re.group ["what"; "how"; "why"; "when"; "where"]%string)
         (Re.Cat (Re.Plus (Re.Atom Re.Space))
            (Re.Cat (Re.Star (Re.Atom Re.Dot))
                    (Re.Star (Re.Atom (Re.Chr "?"%char))))))
      true ] in
  {| question_words := question_words;
     question_patterns := question_patterns;
     compiled_patterns := map Re.compile_IGNORECASE question_patterns |}.

(** [QuestionDetector.is_question] *)
Definition is_question (text : str) : M bool :=
  if negb (Str.truthy text) || (length (Str.strip text) <? 3)
  then mret false else
  let text := Str.strip text in
  (* Check for question mark *)
  if Str.endswith text (py "?") then mret true else
  (* Check patterns *)
  patterns ← attr compiled_patterns;
  if existsb (fun pattern => Re.search pattern text) patterns
  then mret true else
  (* Check if starts with question word *)
  w ← index (Str.split text) 0;
  let first_word := Str.lower w in
  known ← attr question_words;
  if bool_decide (first_word ∈ known) then mret true else
  (* Check for inverted sentence structure *)
  let words := Str.split (Str.lower text) in
  if 2 <=? length words then
    w0 ← index words 0;
    if bool_decide
         (w0 ∈ ({[ py "is"; py "are"; py "was"; py "were"; py "do";
                   py "does"; py "did";
                   py "can"; py "could"; py "will"; py "would";
                   py "should"; py "shall";
                   py "may"; py "might"; py "must"; py "have"; py "has";
                   py "had" ]} : gset str))
    then mret true else mret false
  else mret false.

(** [QuestionDetector.extract_questions] *)
Definition extract_questions (text : str) : M (list str) :=
  let questions : list str := [] in
  (* Split by common sentence delimiters *)
  let sentences := Re.split (py ".!?") text in
  for_each sentences questions (fun questions sentence =>
    let sentence := Str.strip sentence in
    if Str.truthy sentence then
      q ← is_question sentence;
      if (q : bool) then
        (* Add back question mark if missing *)
        let sentence :=
          if negb (Str.endswith sentence (py "?"))
          then sentence ++ py "?" else sentence in
        mret (questions ++ [sentence])
      else mret questions
    else mret questions).

(** [QuestionDetector.get_question_type] *)
Definition get_question_type (question : str) : M str :=
  let question_lower := Str.strip (Str.lower question) in
  (* Check for specific question words *)
  match List.find (fun q_word => Str.startswith question_lower q_word)
          [py "what"; py "when"; py "where"; py "who"; py "whom";
           py "whose"; py "which"; py "why"; py "how"] with
  | Some q_word => mret q_word
  | None =>
      (* Check for yes/no questions *)
      let yes_no_starters : gset str :=
        {[ py "is"; py "are"; py "was"; py "were"; py "do"; py "does";
           py "did";
           py "can"; py "could"; py "will"; py "would"; py "should";
           py "shall";
           py "may"; py "might"; py "must"; py "have"; py "has";
           py "had" ]} in
      let first_word :=
        match Str.split question_lower with
        | w :: _ => w
        | [] => py ""
        end in
      if bool_decide (first_word ∈ yes_no_starters) then mret (py "yes/no")
      else
      (* Check for command-like questions *)
      if existsb (fun cmd => Str.startswith question_lower cmd)
           [py "tell me"; py "explain"; py "describe"; py "define"]
      then mret (py "explanation") else
      if existsb (fun cmd => Str.startswith question_lower cmd)
           [py "calculate"; py "solve"; py "compute"]
      then mret (py "calculation") else
      mret (py "other")
  end.

(** ** The specification's vocabulary *)

(** Whether a call of [is_question] on [self] returns [True]. *)
Definition asks (self : QuestionDetector) (text : str) : bool :=
  match result (is_question text) self with
  | inr true => true
  | _ => false
  end.

(** [isQuestion], on the detector built by [__init__]. *)
Definition isQuestion (text : str) : bool := asks __init__ text.

(** The sentence delimiters. *)
Definition is_delimiter (c : ascii) : bool := bool_decide (c ∈ py ".!?").

(** A question mark is appended to a sentence that lacks one. *)
Definition with_question_mark (s : str) : str :=
  if Str.endswith s (py "?") then s else s ++ py "?".

(** [extractQuestions] as the specification words it: the fragments
    between the runs of delimiters, trimmed, the empty ones dropped,
    the questions among them kept, each ending in a question mark. *)
Definition extractQuestions_spec (text : str) : list str :=
  with_question_mark <$>
    List.filter isQuestion
      (List.filter Str.truthy (Str.strip <$> Str.fields is_delimiter text)).

(** Number of non-whitespace characters. *)
Definition nonspace_count (s : str) : nat :=
  length (List.filter (fun c => negb (Str.isspace c)) s).

(** The interrogative words [getQuestionType] tests, in order. *)
Definition interrogatives : list str :=
  [py "what"; py "when"; py "where"; py "who"; py "whom"; py "whose";
   py "which"; py "why"; py "how"].

(** The auxiliary/modal set. *)
Definition auxiliaries : list str :=
  [py "is"; py "are"; py "was"; py "were"; py "do"; py "does"; py "did";
   py "can"; py "could"; py "will"; py "would"; py "should"; py "shall";
   py "may"; py "might"; py "must"; py "have"; py "has"; py "had"].

(** The embedded question words of pattern rule 5. *)
Definition embedded_words : list string :=
  ["what"; "how"; "why"; "when"; "where"]%string.

(** The categories of [QuestionType]. *)
Definition QuestionType : list str :=
  interrogatives ++
  [py "yes/no"; py "explanation"; py "calculation"; py "other"].

(** The words a regex body matches, as a relation. *)
Inductive lang (ic : bool) : Re.regex -> str -> Prop :=
| lang_eps : lang ic Re.Eps []
| lang_atom a x : Re.atom_match ic a x = true -> lang ic (Re.Atom a) [x]
| lang_cat r1 r2 u v :
    lang ic r1 u -> lang ic r2 v -> lang ic (Re.Cat r1 r2) (u ++ v)
| lang_alt_l r1 r2 u : lang ic r1 u -> lang ic (Re.Alt r1 r2) u
| lang_alt_r r1 r2 u : lang ic r2 u -> lang ic (Re.Alt r1 r2) u
| lang_star_nil r : lang ic (Re.Star r) []
| lang_star_cons r u v :
    lang ic r u -> lang ic (Re.Star r) v -> lang ic (Re.Star r) (u ++ v).

(** The sentences a loop over [pieces] keeps, on the detector [self]. *)
Definition kept (self : QuestionDetector) (pieces : list str) : list str :=
  with_question_mark <$>
    List.filter (asks self) (List.filter Str.truthy (Str.strip <$> pieces)).

(** Two calls in a row, with both results. *)
Definition twice {A : Type} (m : M A) : M (A * A) :=
  x ← m; y ← m; mret (x, y).

Ltac unfold_monad :=
  unfold mbind, M_bind, mret, M_ret, attr, index, raise in *.

(** A regex body whose atoms are literals, [\s] and [.] alone: under
    IGNORECASE such a body cannot tell a letter from its lowercase. *)
Fixpoint case_blind (r : Re.regex) : bool :=
  match r with
  | Re.Void | Re.Eps => true
  | Re.Atom (Re.OneOf _) => false
  | Re.Atom _ => true
  | Re.Cat r1 r2 | Re.Alt r1 r2 => case_blind r1 && case_blind r2
  | Re.Star r1 => case_blind r1
  end.

(** A text occurs in another, in one piece. *)
Definition occurs_in (piece text : str) : Prop :=
  exists before after, text = before ++ piece ++ after.

(** ** The caller: the LLM handler and the window's slots

    [MainWindow.on_transcription] hands every transcription to
    [is_question] and the accepted ones to [LLMHandler.get_answer].
    Qt is outside the program: a widget is the value its setters
    leave (the text of a label, the lines of a text area, whether a
    frame is visible), and what a method sends out (a signal emitted, a
    thread started) is listed in the order it happens. *)

(** An object that can be emitted to or connected: a bound signal or a
    slot. *)
Inductive signal : Type := Signal (id : nat).

Inductive effect : Type :=
| Emit (target : signal) (message : str)
    (* target.emit(message) *)
| StartLLMThread (question subject api_key : str) (connected : option signal)
    (* LLMThread(question, subject, api_key), answer_ready connected, started *)
| StartVisualizationThread (request subject api_key : str)
    (connected : option signal).
    (* VisualizationThread(request, subject, api_key), likewise *)

(** Truth value of an [Optional[str]]: [None] and the empty string are
    false. *)
Definition truthy_opt (o : option str) : bool :=
  match o with
  | Some s => Str.truthy s
  | None => false
  end.

Module llm_handler.

Record LLMHandler : Type := {
  api_key : option str;
  subject : str;
  answer_ready : option signal;
  visualization_ready : option signal
}.

Definition PLACEHOLDER : str := py "YOUR_OPENAI_API_KEY_HERE".

(** [LLMHandler.__init__]; [getenv] is what
    [os.getenv("OPENAI_API_KEY")] returns. *)
Definition __init__ (getenv : option str) : LLMHandler :=
  let api_key := getenv in
  let api_key := if negb (truthy_opt api_key) then Some PLACEHOLDER else api_key in
  {| api_key := api_key; subject := py "General";
     answer_ready := None; visualization_ready := None |}.

(** [LLMHandler.set_subject] *)
Definition set_subject (self : LLMHandler) (subject : str) : LLMHandler :=
  {| api_key := api_key self; subject := subject;
     answer_ready := answer_ready self;
     visualization_ready := visualization_ready self |}.

(** [LLMHandler.get_answer]: what the call sends out. *)
Definition get_answer (self : LLMHandler) (question : str) : list effect :=
  if negb (truthy_opt (api_key self))
     || bool_decide (api_key self = Some PLACEHOLDER)
  then
    match answer_ready self with
    | Some target =>
        [Emit target
           (py "Error: OpenAI API key not configured. Please set your API key.")]
    | None => []
    end
  else
    [StartLLMThread question (subject self) (default [] (api_key self))
       (answer_ready self)].

(** [LLMHandler.get_visualization] *)
Definition get_visualization (self : LLMHandler) (request : str) : list effect :=
  if negb (truthy_opt (api_key self))
     || bool_decide (api_key self = Some PLACEHOLDER)
  then
    match visualization_ready self with
    | Some target => [Emit target (py "Error: OpenAI API key not configured.")]
    | None => []
    end
  else
    [StartVisualizationThread request (subject self)
       (default [] (api_key self)) (visualization_ready self)].

End llm_handler.

Module window_ui.

Import llm_handler.

(** The attributes of a [MainWindow] that its slots below read or
    write. *)
Record MainWindow : Type := {
  current_question : option str;
  current_answer : option str;
  is_listening : bool;
  question_detector : QuestionDetector;
  llm_handler : LLMHandler;
  transcription_area : list str;       (* paragraphs appended *)
  status_label : str;                  (* text of the label *)
  answer_notification : bool;          (* visible *)
  qa_content_layout : list (str * str) (* Q&A widgets added *)
}.

(** [MainWindow.on_transcription]: the exception that escapes, if any,
    the window afterwards, and what was sent out. *)
Definition on_transcription (self : MainWindow) (text : str)
  : option exn * MainWindow * list effect :=
  let area := transcription_area self ++ [text] in
  let logged (detector : QuestionDetector) :=
    {| current_question := current_question self;
       current_answer := current_answer self;
       is_listening := is_listening self;
       question_detector := detector;
       llm_handler := llm_handler self;
       transcription_area := area;
       status_label := status_label self;
       answer_notification := answer_notification self;
       qa_content_layout := qa_content_layout self |} in
  (* Check if it's a question *)
  if is_listening self then
    match is_question text (question_detector self) with
    | (inl e, detector) => (Some e, logged detector, [])
    | (inr false, detector) => (None, logged detector, [])
    | (inr true, detector) =>
        (None,
         {| current_question := Some text;
            current_answer := current_answer self;
            is_listening := is_listening self;
            question_detector := detector;
            llm_handler := llm_handler self;
            transcription_area := area;
            status_label := py "Status: Processing question...";
            answer_notification := answer_notification self;
            qa_content_layout := qa_content_layout self |},
         get_answer (llm_handler self) text)
    end
  else (None, logged (question_detector self), []).

(** [MainWindow.on_answer_ready] *)
Definition on_answer_ready (self : MainWindow) (answer : str) : MainWindow :=
  {| current_question := current_question self;
     current_answer := Some answer;
     is_listening := is_listening self;
     question_detector := question_detector self;
     llm_handler := llm_handler self;
     transcription_area := transcription_area self;
     status_label := py "Status: Answer ready!";
     answer_notification := true;
     qa_content_layout := qa_content_layout self |}.

(** [MainWindow.show_answer] *)
Definition show_answer (self : MainWindow) : MainWindow :=
  if truthy_opt (current_question self) && truthy_opt (current_answer self)
  then
    {| current_question := None;
       current_answer := None;
       is_listening := is_listening self;
       question_detector := question_detector self;
       llm_handler := llm_handler self;
       transcription_area := transcription_area self;
       status_label := py "Status: Listening...";
       answer_notification := false;
       qa_content_layout :=
         qa_content_layout self
         ++ [(default [] (current_question self),
              default [] (current_answer self))] |}
  else self.

(** [MainWindow.ignore_question] *)
Definition ignore_question (self : MainWindow) : MainWindow :=
  {| current_question := None;
     current_answer := None;
     is_listening := is_listening self;
     question_detector := question_detector self;
     llm_handler := llm_handler self;
     transcription_area := transcription_area self;
     status_label := py "Status: Listening...";
     answer_notification := false;
     qa_content_layout := qa_content_layout self |}.

End window_ui.

(** An effect that starts a thread. *)
Definition starts_thread (e : effect) : bool :=
  match e with
  | Emit _ _ => false
  | StartLLMThread _ _ _ _ | StartVisualizationThread _ _ _ _ => true
  end.

Ltac other_word H := injection H as H; by vm_compute in H.

(** ** The specification's examples *)

Example is_question_what_time :
  result (is_question (py "What time is it")) __init__ = inr true.
Proof. by vm_compute. Qed.

Example is_question_sky_is_blue :
  result (is_question (py "The sky is blue")) __init__ = inr false.
Proof. by vm_compute. Qed.

Example is_question_is_the_sky_blue :
  result (is_question (py "Is the sky blue")) __init__ = inr true.
Proof. by vm_compute. Qed.

Example get_question_type_how :
  result (get_question_type (py "How does photosynthesis work?")) __init__
  = inr (py "how").
Proof. by vm_compute. Qed.

Example get_question_type_yes_no :
  result (get_question_type (py "Is water wet?")) __init__ = inr (py "yes/no").
Proof. by vm_compute. Qed.

Example get_question_type_explanation :
  result (get_question_type (py "Tell me about gravity")) __init__
  = inr (py "explanation").
Proof. by vm_compute. Qed.

Example get_question_type_calculation :
  result (get_question_type (py "Calculate the area of a circle")) __init__
  = inr (py "calculation").
Proof. by vm_compute. Qed.

Example re_split_pieces :
  Re.split (py ".!?") (py "a.b?!") = [py "a"; py "b"; py ""] /\
  Re.split (py ".!?") (py "") = [py ""].
Proof. by vm_compute. Qed.

(** ** Facts about the string operations *)

Section StrFacts.

Implicit Types (s cur : str) (c : ascii) (sep : ascii -> bool).

Lemma lstrip_head s c r : Str.lstrip s = c :: r -> Str.isspace c = false.
Proof.
  induction s as [|a s IH]; simpl; [done|].
  destruct (Str.isspace a) eqn:Ha; [done|].
  intros [= <- _]. exact Ha.
Qed.

Lemma rstrip_cons_keep c s :
  Str.isspace c = false -> Str.rstrip (c :: s) = c :: Str.rstrip s.
Proof. intros Hc. simpl. rewrite Hc. by destruct (Str.rstrip s). Qed.

Lemma strip_head s c r : Str.strip s = c :: r -> Str.isspace c = false.
Proof.
  unfold Str.strip. destruct (Str.lstrip s) as [|a l] eqn:Hl; [done|].
  pose proof (lstrip_head _ _ _ Hl) as Ha.
  rewrite rstrip_cons_keep by done. by intros [= <- _].
Qed.

Lemma lstrip_sub s c : c ∈ Str.lstrip s -> c ∈ s.
Proof.
  induction s as [|a s IH]; simpl; [done|].
  destruct (Str.isspace a); [|done]. intros H. right. by apply IH.
Qed.

Lemma rstrip_sub s c : c ∈ Str.rstrip s -> c ∈ s.
Proof.
  induction s as [|a s IH]; simpl; [done|].
  destruct (Str.rstrip s) as [|b r].
  - destruct (Str.isspace a); [by intros ?%elem_of_nil|].
    intros ->%list_elem_of_singleton. by left.
  - intros [->|H]%elem_of_cons; [by left|]. right. by apply IH.
Qed.

Lemma strip_sub s c : c ∈ Str.strip s -> c ∈ s.
Proof. intros H. by apply lstrip_sub, rstrip_sub. Qed.

Lemma strip_nil : Str.strip [] = [].
Proof. done. Qed.

Lemma lstrip_spaces s : Forall (fun c => Str.isspace c = true) s -> Str.lstrip s = [].
Proof. induction 1 as [|c s Hc _ IH]; simpl; [done|]. by rewrite Hc. Qed.

Lemma strip_spaces s : Forall (fun c => Str.isspace c = true) s -> Str.strip s = [].
Proof. intros H. unfold Str.strip. by rewrite lstrip_spaces. Qed.

Lemma lower_length s : length (Str.lower s) = length s.
Proof. apply length_map. Qed.

(** The scanner: a pending token is always emitted. *)
Lemma fields_from_pending sep cur s :
  cur ≠ [] -> exists f fs, Str.fields_from sep cur s = f :: fs.
Proof.
  revert cur. induction s as [|c s IH]; intros cur Hcur; simpl.
  - destruct cur; [done|]. eauto.
  - destruct (sep c).
    + destruct cur; [done|]. simpl. eauto.
    + apply IH. by destruct cur.
Qed.

Lemma split_head_nonspace c s :
  Str.isspace c = false -> exists w ws, Str.split (c :: s) = w :: ws.
Proof.
  intros Hc. unfold Str.split, Str.fields. simpl. rewrite Hc.
  by apply fields_from_pending.
Qed.

(** A trimmed text that is not empty has a first token. *)
Lemma split_strip_nonempty s :
  Str.strip s ≠ [] -> exists w ws, Str.split (Str.strip s) = w :: ws.
Proof.
  destruct (Str.strip s) as [|c r] eqn:Hs; [done|]. intros _.
  apply split_head_nonspace. by eapply strip_head.
Qed.

Lemma fields_from_nonempty sep cur s :
  Forall (fun f => f ≠ []) (Str.fields_from sep cur s).
Proof.
  revert cur. induction s as [|c s IH]; intros cur; simpl.
  - destruct cur; simpl; [constructor|]. by repeat constructor.
  - destruct (sep c); [|apply IH].
    destruct cur; simpl; [apply IH|]. constructor; [done|apply IH].
Qed.

(** Tokens are disjoint pieces of the text. *)
Lemma fields_from_length sep cur s :
  sum_list (length <$> Str.fields_from sep cur s) <= length cur + length s.
Proof.
  revert cur. induction s as [|c s IH]; intros cur; simpl.
  - destruct cur; simpl; lia.
  - destruct (sep c).
    + specialize (IH []). destruct cur; csimpl in *; lia.
    + specialize (IH (cur ++ [c])). rewrite length_app in IH. simpl in IH. lia.
Qed.

Lemma split_two_length s w1 w2 ws :
  Str.split s = w1 :: w2 :: ws -> length w1 + 1 <= length s.
Proof.
  intros H. pose proof (fields_from_length Str.isspace [] s) as Hl.
  pose proof (fields_from_nonempty Str.isspace [] s) as Hn.
  unfold Str.split, Str.fields in H. rewrite H in Hl, Hn.
  apply Forall_cons in Hn as [_ [Hw2 _]%Forall_cons].
  destruct w2; [done|]. csimpl in Hl. lia.
Qed.

Lemma nonspace_count_le s : nonspace_count s <= length s.
Proof. unfold nonspace_count. apply List.filter_length_le. Qed.

Lemma endswith_app s p : Str.endswith (s ++ p) p = true.
Proof. apply bool_decide_eq_true. by exists s. Qed.

Lemma endswith_elem s c : Str.endswith s [c] = true -> c ∈ s.
Proof.
  intros [k ->]%bool_decide_eq_true. apply elem_of_app. right. by left.
Qed.

End StrFacts.

(** ** Facts about the regex matcher *)

Section ReFacts.

Variable ic : bool.

Implicit Types (r : Re.regex) (u v : str) (x : ascii).

Lemma lang_nullable r : lang ic r [] -> Re.nullable r = true.
Proof.
  intros H. remember [] as w eqn:Hw.
  induction H as [|a x Hx|r1 r2 u v _ IH1 _ IH2| | | |r u v _ _ _ _]; simpl;
    try done.
  - apply app_eq_nil in Hw as [-> ->]. by rewrite IH1, IH2.
  - by rewrite IHlang.
  - rewrite IHlang by done. apply orb_true_r.
Qed.

Lemma lang_deriv r x u : lang ic r (x :: u) -> lang ic (Re.deriv ic x r) u.
Proof.
  intros H. remember (x :: u) as w eqn:Hw. revert u Hw.
  induction H as [|a y Hy|r1 r2 u1 v1 H1 IH1 H2 IH2|r1 r2 u1 H1 IH1
                  |r1 r2 u1 H1 IH1| |r1 u1 v1 H1 IH1 H2 IH2];
    intros u Hw; simpl; try done.
  - injection Hw as -> <-. rewrite Hy. constructor.
  - destruct u1 as [|y u1]; simpl in Hw.
    + subst v1. rewrite (lang_nullable _ H1). apply lang_alt_r. by apply IH2.
    + injection Hw as -> <-.
      destruct (Re.nullable r1); [apply lang_alt_l|]; constructor; auto.
  - apply lang_alt_l. by apply IH1.
  - apply lang_alt_r. by apply IH1.
  - destruct u1 as [|y u1]; simpl in Hw.
    + by apply IH2.
    + injection Hw as -> <-. constructor; auto.
Qed.

Lemma nullable_lang r : Re.nullable r = true -> lang ic r [].
Proof.
  induction r as [| |a|r1 IH1 r2 IH2|r1 IH1 r2 IH2|r1 IH1]; simpl; try done.
  - intros _. constructor.
  - intros [H1 H2]%andb_true_iff. apply (lang_cat _ _ _ [] []); auto.
  - intros [H|H]%orb_true_iff; [apply lang_alt_l|apply lang_alt_r]; auto.
  - intros _. constructor.
Qed.

Lemma deriv_lang r x u : lang ic (Re.deriv ic x r) u -> lang ic r (x :: u).
Proof.
  revert u.
  induction r as [| |a|r1 IH1 r2 IH2|r1 IH1 r2 IH2|r1 IH1]; simpl; intros u H.
  - inversion H.
  - inversion H.
  - destruct (Re.atom_match ic a x) eqn:Hx; inversion H; subst. by constructor.
  - destruct (Re.nullable r1) eqn:Hn.
    + inversion H as [| |? ? ? ? Hc| ? ? ? Hc | ? ? ? Hr | |]; subst.
      * inversion Hc; subst.
        apply (lang_cat _ _ _ (x :: _) _); auto.
      * apply (lang_cat _ _ _ [] (x :: u)); [by apply nullable_lang|auto].
    + inversion H; subst. apply (lang_cat _ _ _ (x :: _) _); auto.
  - inversion H; subst; [apply lang_alt_l|apply lang_alt_r]; auto.
  - inversion H; subst. apply (lang_star_cons _ _ (x :: _) _); auto.
Qed.

(** What the matcher finds is a word of the body's language that ends
    where [$] allows. *)
Lemma match_here_sound dollar r s :
  Re.match_here ic dollar r s = true ->
  exists u v, s = u ++ v /\ lang ic r u /\
              (dollar = true -> Re.at_end v = true).
Proof.
  revert r. induction s as [|x s IH]; intros r H.
  - simpl in H. rewrite orb_false_r in H.
    apply andb_true_iff in H as [Hn He]. exists [], []. split; [done|].
    split; [by apply nullable_lang|]. by intros ->.
  - simpl in H. apply orb_true_iff in H as [H|H].
    + apply andb_true_iff in H as [Hn He]. exists [], (x :: s).
      split; [done|]. split; [by apply nullable_lang|]. by intros ->.
    + apply IH in H as (u & v & -> & Hu & Hv). exists (x :: u), v.
      split; [done|]. split; [by apply deriv_lang|done].
Qed.

(** A word of the body's language, read from the current position up
    to a place where [$] holds, is found by the matcher. *)
Lemma match_here_complete dollar r u v :
  lang ic r u -> (dollar = true -> Re.at_end v = true) ->
  Re.match_here ic dollar r (u ++ v) = true.
Proof.
  intros H Hend. revert r H. induction u as [|x u IH]; intros r H.
  - apply lang_nullable in H. rewrite app_nil_l.
    assert (Re.nullable r && (negb dollar || Re.at_end v) = true) as Hnow.
    { rewrite H. destruct dollar; [by rewrite Hend|done]. }
    destruct v; simpl in *; by rewrite Hnow.
  - simpl. apply orb_true_iff. right. apply IH. by apply lang_deriv.
Qed.

Lemma tails_suffix u v : List.In v (Re.tails (u ++ v)).
Proof.
  induction u as [|x u IH]; simpl.
  - destruct v; by left.
  - by right.
Qed.

Lemma lang_chars (l : str) u :
  ic = true -> Str.lower u = Str.lower l ->
  lang ic (foldr (fun c r => Re.Cat (Re.Atom (Re.Chr c)) r) Re.Eps l) u.
Proof.
  intros ->. revert u. induction l as [|c l IH]; intros [|x u]; simpl; try done.
  - constructor.
  - intros [= Hx Hu]. apply (lang_cat _ _ _ [x] u); [|by apply IH].
    constructor. simpl. by apply bool_decide_eq_true.
Qed.

Lemma lang_group (ws : list string) (w : string) u :
  w ∈ ws -> lang ic (Re.word w) u -> lang ic (Re.group ws) u.
Proof.
  induction 1 as [w ws|w w' ws _ IH]; intros H; simpl.
  - by apply lang_alt_l.
  - by apply lang_alt_r, IH.
Qed.

Lemma lang_star_atom a u :
  Forall (fun x => Re.atom_match ic a x = true) u -> lang ic (Re.Star (Re.Atom a)) u.
Proof.
  induction 1 as [|x u Hx _ IH]; [constructor|].
  apply (lang_star_cons _ _ [x] u); [by constructor|done].
Qed.

Lemma lang_plus_atom a u :
  u ≠ [] -> Forall (fun x => Re.atom_match ic a x = true) u ->
  lang ic (Re.Plus (Re.Atom a)) u.
Proof.
  destruct u as [|x u]; [done|]. intros _ [Hx Hu]%Forall_cons.
  apply (lang_cat _ _ _ [x] u); [by constructor|by apply lang_star_atom].
Qed.

End ReFacts.

Lemma tails_prefix (t s : str) : List.In t (Re.tails s) -> exists pre, s = pre ++ t.
Proof.
  induction s as [|x s IH]; simpl.
  - intros [<-|[]]. by exists [].
  - intros [<-|H]; [by exists []|].
    destruct (IH H) as [pre ->]. by exists (x :: pre).
Qed.

(** [search] decides the meaning of the pattern: some part of the text,
    at the start when the pattern has [^], is a word of the body, and
    what follows it is a place for [$] when the pattern has one. *)
Lemma search_spec (p : Re.Pattern) (text : str) :
  Re.search p text = true <->
  exists pre u v, text = pre ++ u ++ v /\
    (Re.bol (Re.source p) = true -> pre = []) /\
    lang (Re.ignorecase p) (Re.body (Re.source p)) u /\
    (Re.eol (Re.source p) = true -> Re.at_end v = true).
Proof.
  unfold Re.search. split.
  - destruct (Re.bol (Re.source p)).
    + intros (u & v & -> & Hu & Hv)%match_here_sound. by exists [], u, v.
    + intros (t & Ht & (u & v & -> & Hu & Hv)%match_here_sound)%existsb_exists.
      apply tails_prefix in Ht as [pre ->]. by exists pre, u, v.
  - intros (pre & u & v & -> & Hpre & Hu & Hv).
    destruct (Re.bol (Re.source p)).
    + rewrite Hpre by done. rewrite app_nil_l. by apply match_here_complete.
    + apply existsb_exists. exists (u ++ v). split; [apply tails_suffix|].
      by apply match_here_complete.
Qed.

(** An unanchored pattern is found wherever a match starts. *)
Lemma search_anywhere (p : Re.Pattern) (pre u v : str) :
  Re.bol (Re.source p) = false ->
  lang (Re.ignorecase p) (Re.body (Re.source p)) u ->
  (Re.eol (Re.source p) = true -> Re.at_end v = true) ->
  Re.search p (pre ++ u ++ v) = true.
Proof.
  intros Hbol Hu Hv. apply search_spec. exists pre, u, v.
  split; [done|]. split; [by rewrite Hbol|done].
Qed.

(** ** Running the methods *)

Lemma is_question_guard text self :
  length (Str.strip text) < 3 -> is_question text self = (inr false, self).
Proof.
  intros H. unfold is_question.
  apply Nat.ltb_lt in H. rewrite H. by rewrite orb_true_r.
Qed.

Lemma guard_passed text :
  negb (Str.truthy text) || (length (Str.strip text) <? 3) = false ->
  3 <= length (Str.strip text).
Proof. intros [_ H%Nat.ltb_ge]%orb_false_iff. exact H. Qed.

Lemma guard_open text :
  3 <= length (Str.strip text) ->
  negb (Str.truthy text) || (length (Str.strip text) <? 3) = false.
Proof.
  intros H. apply orb_false_iff. split; [|by apply Nat.ltb_ge].
  destruct text; [rewrite strip_nil in H; simpl in H; lia|done].
Qed.

Lemma is_question_returns text self :
  exists b : bool, is_question text self = (inr b, self).
Proof.
  unfold is_question.
  destruct (negb (Str.truthy text) || (length (Str.strip text) <? 3)) eqn:G.
  { by exists false. }
  apply guard_passed in G.
  destruct (Str.endswith _ _). { by exists true. }
  unfold_monad.
  destruct (existsb _ _). { by exists true. }
  destruct (split_strip_nonempty text) as (w & ws & ->).
  { intros E. rewrite E in G. simpl in G. lia. }
  change ((w :: ws) !! 0) with (Some w). unfold_monad.
  destruct (bool_decide (_ ∈ question_words self)). { by exists true. }
  destruct (Str.split (Str.lower (Str.strip text))) as [|w0 [|w1 ws']].
  - by exists false.
  - by exists false.
  - change (2 <=? length (w0 :: w1 :: ws')) with true.
    change ((w0 :: w1 :: ws') !! 0) with (Some w0). unfold_monad.
    destruct (bool_decide _); eauto.
Qed.

(** No call changes the object. *)
Lemma is_question_object text self : object (is_question text) self = self.
Proof.
  unfold object. by destruct (is_question_returns text self) as [b ->].
Qed.

Lemma is_question_asks text self :
  is_question text self = (inr (asks self text), self).
Proof.
  unfold asks, result.
  destruct (is_question_returns text self) as [b ->]. by destruct b.
Qed.

Lemma is_question_mark text self :
  3 <= length (Str.strip text) ->
  Str.endswith (Str.strip text) (py "?") = true ->
  is_question text self = (inr true, self).
Proof.
  intros G H. unfold is_question. by rewrite (guard_open _ G), H.
Qed.

Lemma is_question_pattern text self p :
  3 <= length (Str.strip text) ->
  p ∈ compiled_patterns self ->
  Re.search p (Str.strip text) = true ->
  is_question text self = (inr true, self).
Proof.
  intros G Hp H. unfold is_question. rewrite (guard_open _ G).
  destruct (Str.endswith _ _); [done|]. unfold_monad.
  assert (existsb (fun pattern => Re.search pattern (Str.strip text))
            (compiled_patterns self) = true) as ->; [|done].
  apply existsb_exists. exists p. split; [|done]. by apply list_elem_of_In.
Qed.

Lemma is_question_first_word text self w ws :
  3 <= length (Str.strip text) ->
  Str.split (Str.strip text) = w :: ws ->
  Str.lower w ∈ question_words self ->
  is_question text self = (inr true, self).
Proof.
  intros G Hs Hw. unfold is_question. rewrite (guard_open _ G).
  destruct (Str.endswith _ _); [done|]. unfold_monad.
  destruct (existsb _ _); [done|]. rewrite Hs.
  change ((w :: ws) !! 0) with (Some w). unfold_monad.
  by rewrite (bool_decide_eq_true_2 _ Hw).
Qed.

Lemma filter_truthy_strip (l : list str) :
  List.filter Str.truthy (Str.strip <$> l) =
  List.filter Str.truthy (Str.strip <$> List.filter Str.truthy l).
Proof.
  induction l as [|x l IH]; [done|]. destruct x as [|c x]; csimpl; [done|].
  destruct (Str.truthy (Str.strip (c :: x))); by rewrite IH.
Qed.

(** The pieces of [re.split], the empty ones apart, are the fields
    between the separators. *)
Lemma split_from_fields cs in_run cur s :
  (in_run = true -> cur = []) ->
  List.filter Str.truthy (Re.split_from cs in_run cur s) =
  Str.fields_from (fun c => bool_decide (c ∈ cs)) cur s.
Proof.
  revert in_run cur. induction s as [|c s IH]; intros in_run cur Hrun; simpl.
  - by destruct cur.
  - destruct (bool_decide (c ∈ cs)).
    + destruct in_run.
      * rewrite Hrun by done. by apply IH.
      * simpl. rewrite IH by done. by destruct cur.
    + by apply IH.
Qed.

Lemma kept_split self text :
  kept self (Re.split (py ".!?") text) = kept self (Str.fields is_delimiter text).
Proof.
  unfold kept, Re.split, Str.fields. rewrite filter_truthy_strip.
  by rewrite split_from_fields.
Qed.

Lemma extract_questions_run text self :
  extract_questions text self = (inr (kept self (Re.split (py ".!?") text)), self).
Proof.
  unfold extract_questions.
  match goal with |- for_each _ _ ?f _ = _ => set (body := f) end.
  enough (forall l acc, for_each l acc body self = (inr (acc ++ kept self l), self))
    as H by apply H.
  induction l as [|x l IH]; intros acc.
  - unfold kept. simpl. by rewrite app_nil_r.
  - simpl. unfold mbind at 1, M_bind at 1. unfold body at 1. unfold kept. csimpl.
    destruct (Str.truthy (Str.strip x)) eqn:Hx.
    + unfold mbind at 1, M_bind at 1. rewrite is_question_asks. simpl.
      destruct (asks self (Str.strip x)) eqn:Ha; unfold mret at 1, M_ret at 1.
      * rewrite IH. unfold kept. csimpl. unfold with_question_mark at 2.
        destruct (Str.endswith _ _); simpl; by rewrite <- app_assoc.
      * by rewrite IH.
    + unfold mret at 1, M_ret at 1. by rewrite IH.
Qed.

Lemma find_first {A : Type} (f : A -> bool) (l pre post : list A) (w : A) :
  l = pre ++ w :: post -> f w = true -> (forall x, x ∈ pre -> f x = false) ->
  List.find f l = Some w.
Proof.
  intros -> Hw. induction pre as [|a pre IH]; intros Hpre; simpl.
  - by rewrite Hw.
  - rewrite (Hpre a) by left. apply IH. intros x Hx. apply Hpre. by right.
Qed.

Lemma get_question_type_found question self w :
  List.find (fun q_word => Str.startswith (Str.strip (Str.lower question)) q_word)
    interrogatives = Some w ->
  get_question_type question self = (inr w, self).
Proof.
  intros H. unfold get_question_type. unfold interrogatives in H. by rewrite H.
Qed.

Lemma get_question_type_returns question self :
  exists t, get_question_type question self = (inr t, self) /\ t ∈ QuestionType.
Proof.
  unfold get_question_type, QuestionType.
  destruct (List.find _ _) as [w|] eqn:Hf.
  - exists w. split; [done|]. apply elem_of_app. left.
    apply find_some in Hf as [Hin _]. by apply list_elem_of_In.
  - cbv zeta.
    repeat match goal with
           | |- context [if ?b then _ else _] => destruct b
           end;
      eexists; (split; [reflexivity|]); apply elem_of_app; right;
      repeat constructor.
Qed.

Lemma get_question_type_object question self :
  object (get_question_type question) self = self.
Proof.
  unfold object.
  by destruct (get_question_type_returns question self) as (t & -> & _).
Qed.

Lemma extract_questions_object text self :
  object (extract_questions text) self = self.
Proof. unfold object. by rewrite extract_questions_run. Qed.

(** A method that returns and leaves the object as it was gives the
    same result when called again. *)
Lemma twice_same {A : Type} (m : M A) (self : QuestionDetector) (a : A) :
  m self = (inr a, self) -> twice m self = (inr (a, a), self).
Proof. intros H. unfold twice. unfold_monad. by rewrite !H. Qed.

(** Every auxiliary is one of the detector's question words, and has
    two characters at least. *)
Lemma auxiliaries_known (x : str) :
  x ∈ auxiliaries -> x ∈ question_words __init__ /\ 2 <= length x.
Proof.
  unfold auxiliaries. intros Hx.
  repeat (apply elem_of_cons in Hx as [->|Hx]);
    try (by apply elem_of_nil in Hx);
    (split; [by vm_compute|simpl; lia]).
Qed.

(** The fields between separators hold no separator. *)
Lemma fields_from_clean (sep : ascii -> bool) (cur s : str) :
  Forall (fun c => sep c = false) cur ->
  Forall (Forall (fun c => sep c = false)) (Str.fields_from sep cur s).
Proof.
  revert cur. induction s as [|c s IH]; intros cur Hcur; simpl.
  - destruct cur; simpl; [constructor|]. by constructor.
  - destruct (sep c) eqn:Hc.
    + destruct cur; simpl; [by apply IH|]. constructor; [done|by apply IH].
    + apply IH, Forall_app. by repeat constructor.
Qed.

(** What the loop appends for a piece without delimiters: the trimmed
    piece and one question mark. *)
Lemma with_question_mark_clean (piece : str) :
  Forall (fun c => is_delimiter c = false) piece ->
  with_question_mark (Str.strip piece) = Str.strip piece ++ py "?" /\
  Forall (fun c => is_delimiter c = false) (Str.strip piece).
Proof.
  intros H. assert (Forall (fun c => is_delimiter c = false) (Str.strip piece)) as Hs.
  { apply Forall_forall. intros c Hc%strip_sub.
    by eapply Forall_forall in H. }
  split; [|done]. unfold with_question_mark.
  destruct (Str.endswith _ _) eqn:He; [|done].
  apply endswith_elem in He. eapply Forall_forall in Hs; [|done].
  by vm_compute in Hs.
Qed.

Lemma kept_clean self (pieces : list str) :
  Forall (Forall (fun c => is_delimiter c = false)) pieces ->
  Forall (fun q => exists body, q = body ++ py "?" /\
                     Forall (fun c => is_delimiter c = false) body)
    (kept self pieces).
Proof.
  unfold kept. induction 1 as [|x l Hx _ IH]; csimpl; [constructor|].
  destruct (Str.truthy _); [|done]. simpl.
  destruct (asks self _); [|done]. csimpl.
  constructor; [|done]. exists (Str.strip x).
  by apply with_question_mark_clean.
Qed.

(** A text of whitespace alone splits into pieces of whitespace
    alone, and the loop keeps none of them. *)
Lemma split_from_spaces (cs : str) (in_run : bool) (cur s : str) :
  Forall (fun c => Str.isspace c = true) s ->
  Forall (fun c => Str.isspace c = true) cur ->
  Forall (fun piece => Str.strip piece = []) (Re.split_from cs in_run cur s).
Proof.
  revert in_run cur. induction s as [|c s IH]; intros in_run cur Hs Hcur; simpl.
  - constructor; [by apply strip_spaces|constructor].
  - apply Forall_cons in Hs as [Hc Hs].
    destruct (bool_decide _); [destruct in_run|].
    + by apply IH.
    + constructor; [by apply strip_spaces|by apply IH].
    + apply IH; [done|]. apply Forall_app. by repeat constructor.
Qed.

Lemma kept_blank self (pieces : list str) :
  Forall (fun piece => Str.strip piece = []) pieces -> kept self pieces = [].
Proof.
  unfold kept. induction 1 as [|x l Hx _ IH]; csimpl; [done|]. by rewrite Hx.
Qed.

(** ** Properties of the detector *)

(** C1, as stated, fails: "a?" ends with a question mark after
    trimming, and the length guard answers False first. *)
Lemma C1_short_question_rejected :
  Str.endswith (Str.strip (py "a?")) (py "?") = true /\
  result (is_question (py "a?")) __init__ = inr false.
Proof. split; by vm_compute. Qed.

(** C1 (amended): for every input string whose trimmed form has at
    least 3 characters and ends with a literal "?", isQuestion returns
    true. *)
Theorem C1_question_mark (text : str) :
  3 <= length (Str.strip text) ->
  Str.endswith (Str.strip text) (py "?") = true ->
  result (is_question text) __init__ = inr true.
Proof.
  intros G H. unfold result. by rewrite (is_question_mark _ _ G H).
Qed.

Lemma C1_question_mark_witness :
  result (is_question (py "  Why?  ")) __init__ = inr true.
Proof.
  apply (C1_question_mark (py "  Why?  ")).
  - vm_compute. lia.
  - by vm_compute.
Defined.

(** C2, as stated, fails: the trimmed form of "a ?" has two
    non-whitespace characters, but three characters in all, so the
    guard lets it through and the trailing "?" makes it a question. *)
Lemma C2_interior_space_counts :
  nonspace_count (Str.strip (py "a ?")) = 2 /\
  result (is_question (py "a ?")) __init__ = inr true.
Proof. split; by vm_compute. Qed.

(** C2 (amended): for every input string whose trimmed form has fewer
    than 3 characters (interior whitespace counted), isQuestion returns
    false, whatever the other rules say. *)
Theorem C2_short_text (text : str) :
  length (Str.strip text) < 3 ->
  result (is_question text) __init__ = inr false.
Proof.
  intros H. unfold result. by rewrite (is_question_guard _ _ H).
Qed.

Lemma C2_short_text_witness :
  result (is_question (py " a? ")) __init__ = inr false.
Proof. apply (C2_short_text (py " a? ")). vm_compute. lia. Defined.

(** C3: extractQuestions is the specification's pipeline (fragments
    between the runs of '.', '!', '?', trimmed, the empty ones dropped,
    the questions among them kept in order, a "?" appended where
    missing), and on the specification's example it returns
    ["What is its temperature?"; "Tell me more?"]. *)
Theorem C3_extract_questions (text : str) :
  result (extract_questions text) __init__ = inr (extractQuestions_spec text) /\
  result (extract_questions
            (py "The sun is hot. What is its temperature. Tell me more."))
    __init__ = inr [py "What is its temperature?"; py "Tell me more?"].
Proof.
  split; [|by vm_compute].
  unfold result. rewrite extract_questions_run. simpl. f_equal.
  apply kept_split.
Qed.

(** C4: when the lowercased, trimmed input starts with one of the nine
    interrogative words, getQuestionType returns the first of them, in
    the order what, when, where, who, whom, whose, which, why, how,
    that the text starts with; the yes/no check is never reached, so a
    text starting with "how should" is of type "how". *)
Theorem C4_interrogative_first (question : str) (pre post : list str) (w : str) :
  interrogatives = pre ++ w :: post ->
  Str.startswith (Str.strip (Str.lower question)) w = true ->
  (forall w', w' ∈ pre -> Str.startswith (Str.strip (Str.lower question)) w' = false) ->
  result (get_question_type question) __init__ = inr w /\
  w ≠ py "yes/no" /\
  forall q rest, Str.strip (Str.lower q) = py "how should" ++ rest ->
    result (get_question_type q) __init__ = inr (py "how").
Proof.
  intros Hl Hw Hpre. split; [|split].
  - unfold result. erewrite get_question_type_found; [done|].
    by eapply find_first.
  - intros ->. assert (py "yes/no" ∈ interrogatives) as Hin.
    { rewrite Hl. apply elem_of_app. right. by left. }
    unfold interrogatives in Hin.
    repeat (apply elem_of_cons in Hin as [Hin|Hin]; [done|]).
    by apply elem_of_nil in Hin.
  - intros q rest Hq. unfold result.
    erewrite get_question_type_found; [done|]. rewrite Hq.
    by vm_compute.
Qed.

Lemma C4_interrogative_first_witness :
  result (get_question_type (py " Whom should I ask? ")) __init__ = inr (py "who").
Proof.
  apply (C4_interrogative_first (py " Whom should I ask? ")
           [py "what"; py "when"; py "where"]
           [py "whom"; py "whose"; py "which"; py "why"; py "how"]
           (py "who")).
  - reflexivity.
  - by vm_compute.
  - intros w' Hw'.
    repeat (apply elem_of_cons in Hw' as [->|Hw']; [by vm_compute|]).
    by apply elem_of_nil in Hw'.
Defined.

(** C5, as stated, fails: "whatever works" has more than three
    non-whitespace characters and contains "what" followed by further
    characters, yet no rule accepts it, because rule 5 wants whitespace
    straight after the word. *)
Lemma C5_word_inside_word :
  3 <= nonspace_count (Str.strip (py "whatever works")) /\
  (exists pre u post w,
      Str.strip (py "whatever works") = pre ++ u ++ post /\
      Str.lower u = py w /\ w ∈ embedded_words) /\
  result (is_question (py "whatever works")) __init__ = inr false.
Proof.
  split; [vm_compute; lia|]. split; [|by vm_compute].
  exists [], (py "what"), (py "ever works"), "what"%string.
  split; [done|]. split; [done|]. by left.
Qed.

(** C5 (amended): for every input string whose trimmed form has at
    least 3 non-whitespace characters and whose trimmed form contains,
    in any letter case, one of the words what, how, why, when, where
    immediately followed by one or more whitespace characters, with no
    line feed in the trimmed text after that whitespace, isQuestion
    returns true.  (Whitespace that trimming removes does not count: the
    word must be followed by whitespace inside the trimmed text.) *)
Theorem C5_embedded_word (text pre u ws rest : str) (w : string) :
  3 <= nonspace_count (Str.strip text) ->
  Str.strip text = pre ++ u ++ ws ++ rest ->
  w ∈ embedded_words -> Str.lower u = py w ->
  ws ≠ [] -> Forall (fun c => Str.isspace c = true) ws ->
  "010"%char ∉ rest ->
  result (is_question text) __init__ = inr true.
Proof.
  intros G Ht Hw Hu Hws Hsp Hrest. unfold result.
  pose proof (nonspace_count_le (Str.strip text)) as Hle.
  set (p := Re.compile_IGNORECASE
              (Re.Expr false
                 (Re.Cat (Re.group embedded_words)
                    (Re.Cat (Re.Plus (Re.Atom Re.Space))
                       (Re.Cat (Re.Star (Re.Atom Re.Dot))
                          (Re.Star (Re.Atom (Re.Chr "?"%char))))))
                 true)).
  rewrite (is_question_pattern text __init__ p); [done|lia| |].
  { apply list_elem_of_In. do 4 right. by left. }
  rewrite Ht. replace (u ++ ws ++ rest) with ((u ++ ws ++ rest ++ []) ++ []).
  2: { by rewrite !app_nil_r. }
  apply search_anywhere; [done| |done].
  change (lang true
            (Re.Cat (Re.group embedded_words)
               (Re.Cat (Re.Plus (Re.Atom Re.Space))
                  (Re.Cat (Re.Star (Re.Atom Re.Dot))
                     (Re.Star (Re.Atom (Re.Chr "?"%char))))))
            (u ++ ws ++ rest ++ [])).
  apply lang_cat.
  { apply (lang_group _ _ w); [done|]. apply lang_chars; [done|].
    rewrite Hu. revert Hw. unfold embedded_words. clear.
    intros Hw. repeat (apply elem_of_cons in Hw as [->|Hw]; [done|]).
    by apply elem_of_nil in Hw. }
  apply lang_cat; [by apply lang_plus_atom|].
  apply lang_cat; [|constructor].
  apply lang_star_atom. apply Forall_forall. intros c Hc. simpl.
  apply negb_true_iff, bool_decide_eq_false. by intros ->.
Qed.

Lemma C5_embedded_word_witness :
  result (is_question (py "I know how it works")) __init__ = inr true.
Proof.
  apply (C5_embedded_word (py "I know how it works") (py "I know ") (py "how")
           (py " ") (py "it works") "how"%string).
  - vm_compute. lia.
  - reflexivity.
  - right. by left.
  - reflexivity.
  - discriminate.
  - by repeat constructor.
  - intros H. vm_compute in H.
    repeat (apply elem_of_cons in H as [H|H]; [discriminate H|]).
    by apply elem_of_nil in H.
Defined.

(** C6: for every input string that, after trimming, has two or more
    whitespace-delimited tokens and whose first token, lowercased, is
    in the auxiliary/modal set, isQuestion returns true. *)
Theorem C6_auxiliary_first (text w : str) :
  2 <= length (Str.split (Str.strip text)) ->
  head (Str.split (Str.strip text)) = Some w ->
  Str.lower w ∈ auxiliaries ->
  result (is_question text) __init__ = inr true.
Proof.
  intros Hlen Hhead Haux.
  destruct (Str.split (Str.strip text)) as [|w1 [|w2 ws]] eqn:Hs;
    simpl in Hlen; try lia.
  injection Hhead as ->.
  apply auxiliaries_known in Haux as [Hknown Hw]. rewrite lower_length in Hw.
  pose proof (split_two_length _ _ _ _ Hs) as Hl.
  unfold result. rewrite (is_question_first_word text __init__ w (w2 :: ws)); [done|lia|done|done].
Qed.

Lemma C6_auxiliary_first_witness :
  result (is_question (py " Shall we go ")) __init__ = inr true.
Proof.
  apply (C6_auxiliary_first (py " Shall we go ") (py "Shall")).
  - vm_compute. lia.
  - reflexivity.
  - vm_compute. do 12 right. by left.
Defined.

(** C7: the three operations always return: isQuestion a boolean,
    extractQuestions a sequence, getQuestionType a member of the
    category set; on the empty string and on every whitespace-only
    string isQuestion is false and extractQuestions is empty, and the
    empty string is of type "other". *)
Theorem C7_total (text : str) :
  (exists b : bool, result (is_question text) __init__ = inr b) /\
  (exists qs : list str, result (extract_questions text) __init__ = inr qs) /\
  (exists t : str, result (get_question_type text) __init__ = inr t /\ t ∈ QuestionType) /\
  (Forall (fun c => Str.isspace c = true) text ->
   result (is_question text) __init__ = inr false /\
   result (extract_questions text) __init__ = inr []) /\
  result (is_question []) __init__ = inr false /\
  result (extract_questions []) __init__ = inr [] /\
  result (get_question_type []) __init__ = inr (py "other").
Proof.
  unfold result.
  split; [|split; [|split; [|split; [|by vm_compute]]]].
  - destruct (is_question_returns text __init__) as [b ->]. by exists b.
  - rewrite extract_questions_run. eauto.
  - destruct (get_question_type_returns text __init__) as (t & -> & Ht). eauto.
  - intros Hws. split.
    { rewrite is_question_guard; [done|]. rewrite strip_spaces by done. simpl. lia. }
    rewrite extract_questions_run. simpl. f_equal.
    apply kept_blank, split_from_spaces; [done|constructor].
Qed.

Lemma C7_total_witness :
  result (is_question (py "   ")) __init__ = inr false /\
  result (extract_questions (py "   ")) __init__ = inr [].
Proof.
  apply (C7_total (py "   ")). by repeat constructor.
Defined.

(** C8: every operation is deterministic and leaves the detector as it
    found it: on any detector state, in particular the one built by
    the initializer, two calls in a row on the same string return the
    same result, and the rule tables are unchanged afterwards. *)
Theorem C8_deterministic (self : QuestionDetector) (text : str) :
  (exists b, twice (is_question text) self = (inr (b, b), self)) /\
  (exists qs, twice (extract_questions text) self = (inr (qs, qs), self)) /\
  (exists t, twice (get_question_type text) self = (inr (t, t), self)) /\
  object (is_question text) self = self /\
  object (extract_questions text) self = self /\
  object (get_question_type text) self = self.
Proof.
  repeat split.
  - destruct (is_question_returns text self) as [b Hb].
    exists b. by apply twice_same.
  - eexists. apply twice_same, extract_questions_run.
  - destruct (get_question_type_returns text self) as (t & Ht & _).
    exists t. by apply twice_same.
  - apply is_question_object.
  - apply extract_questions_object.
  - apply get_question_type_object.
Qed.

(** C9: isQuestion never raises: on any detector it returns a boolean,
    and whenever the length guard is passed (trimmed length at least 3)
    the token list of the trimmed text is not empty, so that its first
    element is defined. *)
Theorem C9_no_index_error (self : QuestionDetector) (text : str) :
  (exists b : bool, result (is_question text) self = inr b) /\
  (3 <= length (Str.strip text) ->
   exists w, Str.split (Str.strip text) !! 0 = Some w).
Proof.
  split.
  - unfold result. destruct (is_question_returns text self) as [b ->]. eauto.
  - intros G. destruct (split_strip_nonempty text) as (w & ws & ->); [|by exists w].
    intros E. rewrite E in G. simpl in G. lia.
Qed.

Lemma C9_no_index_error_witness :
  exists w, Str.split (Str.strip (py " so what ")) !! 0 = Some w.
Proof.
  apply (C9_no_index_error __init__ (py " so what ")). vm_compute. lia.
Defined.

(** C10: every element extractQuestions returns is a delimiter-free
    body followed by the "?" the loop appended: it ends with "?", holds
    exactly one "?", and holds no '.' and no '!'. *)
Theorem C10_one_question_mark (text : str) :
  exists qs, result (extract_questions text) __init__ = inr qs /\
    Forall (fun q =>
              (exists body, q = body ++ py "?" /\
                 Str.endswith body (py "?") = false) /\
              Str.endswith q (py "?") = true /\
              count_occ Ascii.ascii_dec q "?"%char = 1 /\
              ("."%char ∉ q) /\ ("!"%char ∉ q)) qs.
Proof.
  eexists. unfold result. rewrite extract_questions_run, kept_split.
  split; [done|].
  eapply Forall_impl.
  { apply kept_clean, (fields_from_clean is_delimiter []). constructor. }
  intros q (body & -> & Hbody).
  assert (forall c, is_delimiter c = true -> c ∉ body) as Hno.
  { intros c Hc Hin. eapply Forall_forall in Hbody; [|done]. congruence. }
  repeat split.
  - exists body. split; [done|].
    destruct (Str.endswith body (py "?")) eqn:He; [|done].
    apply endswith_elem in He. by apply Hno in He.
  - apply endswith_app.
  - rewrite count_occ_app.
    assert (count_occ Ascii.ascii_dec body "?"%char = 0) as ->; [|done].
    apply count_occ_not_In. rewrite <- list_elem_of_In. by apply Hno.
  - intros [H|H]%elem_of_app; [by apply Hno in H|].
    apply list_elem_of_singleton in H. discriminate H.
  - intros [H|H]%elem_of_app; [by apply Hno in H|].
    apply list_elem_of_singleton in H. discriminate H.
Qed.

(** ** Further facts about the string operations *)

Section StrMore.

Implicit Types (s cur : str) (c : ascii) (sep : ascii -> bool).

Lemma isspace_lower_chr c : Str.isspace (Str.lower_chr c) = Str.isspace c.
Proof. by destruct c as [[] [] [] [] [] [] [] []]. Qed.

Lemma lower_chr_idem c : Str.lower_chr (Str.lower_chr c) = Str.lower_chr c.
Proof. by destruct c as [[] [] [] [] [] [] [] []]. Qed.

Lemma lower_chr_mark c : Str.lower_chr c = "?"%char <-> c = "?"%char.
Proof. destruct c as [[] [] [] [] [] [] [] []]; by vm_compute. Qed.

Lemma lower_chr_feed c : Str.lower_chr c = "010"%char <-> c = "010"%char.
Proof. destruct c as [[] [] [] [] [] [] [] []]; by vm_compute. Qed.

Lemma lower_idem s : Str.lower (Str.lower s) = Str.lower s.
Proof.
  unfold Str.lower. rewrite map_map. apply map_ext. apply lower_chr_idem.
Qed.

Lemma lstrip_lower s : Str.lstrip (Str.lower s) = Str.lower (Str.lstrip s).
Proof.
  induction s as [|c s IH]; simpl; [done|]. rewrite isspace_lower_chr.
  by destruct (Str.isspace c).
Qed.

Lemma rstrip_lower s : Str.rstrip (Str.lower s) = Str.lower (Str.rstrip s).
Proof.
  induction s as [|c s IH]; simpl; [done|]. rewrite IH, isspace_lower_chr.
  destruct (Str.rstrip s); simpl; [|done]. by destruct (Str.isspace c).
Qed.

Lemma strip_lower s : Str.strip (Str.lower s) = Str.lower (Str.strip s).
Proof. unfold Str.strip. by rewrite lstrip_lower, rstrip_lower. Qed.

Lemma fields_from_lower cur s :
  Str.fields_from Str.isspace (Str.lower cur) (Str.lower s) =
  map Str.lower (Str.fields_from Str.isspace cur s).
Proof.
  revert cur. induction s as [|c s IH]; intros cur; simpl.
  - by destruct cur.
  - rewrite isspace_lower_chr. destruct (Str.isspace c).
    + pose proof (IH []) as IH0. simpl in IH0. rewrite IH0. by destruct cur.
    + rewrite <- IH. unfold Str.lower. by rewrite map_app.
Qed.

Lemma split_lower s : Str.split (Str.lower s) = map Str.lower (Str.split s).
Proof. apply (fields_from_lower []). Qed.

Lemma endswith_mark_lower s :
  Str.endswith (Str.lower s) (py "?") = Str.endswith s (py "?").
Proof.
  unfold Str.endswith. apply bool_decide_ext. split.
  - intros [k Hk]. unfold Str.lower in Hk.
    apply map_eq_app in Hk as (k' & l & -> & _ & Hl).
    destruct l as [|c [|??]]; try done. injection Hl as ->%lower_chr_mark.
    by exists k'.
  - intros [k ->]. exists (Str.lower k). unfold Str.lower. by rewrite map_app.
Qed.

Lemma lstrip_keep s :
  (forall c r, s = c :: r -> Str.isspace c = false) -> Str.lstrip s = s.
Proof. destruct s as [|c r]; [done|]. intros H. simpl. by rewrite (H c r). Qed.

Lemma rstrip_idem s : Str.rstrip (Str.rstrip s) = Str.rstrip s.
Proof.
  induction s as [|c s IH]; simpl; [done|].
  destruct (Str.rstrip s) as [|b r] eqn:Hr.
  - destruct (Str.isspace c) eqn:Hc; simpl; [done|]. by rewrite Hc.
  - simpl in *. by rewrite IH.
Qed.

(** Trimming a trimmed text changes nothing. *)
Lemma strip_idem s : Str.strip (Str.strip s) = Str.strip s.
Proof.
  unfold Str.strip at 1. rewrite lstrip_keep.
  - unfold Str.strip. apply rstrip_idem.
  - intros c r H. by eapply strip_head.
Qed.

(** A trimmed text does not end in whitespace either. *)
Lemma rstrip_snoc s c :
  Str.isspace c = false -> Str.rstrip (s ++ [c]) = s ++ [c].
Proof.
  intros Hc. induction s as [|a s IH]; simpl; [by rewrite Hc|].
  rewrite IH. by destruct s.
Qed.

Lemma lstrip_prefix s : exists ws, s = ws ++ Str.lstrip s.
Proof.
  induction s as [|c s [ws IH]]; simpl; [by exists []|].
  destruct (Str.isspace c); [|by exists []].
  exists (c :: ws). simpl. by rewrite <- IH.
Qed.

Lemma rstrip_suffix s : exists ws, s = Str.rstrip s ++ ws.
Proof.
  induction s as [|c s [ws IH]]; simpl; [by exists []|].
  destruct (Str.rstrip s) as [|b r].
  - destruct (Str.isspace c); [by exists (c :: s)|].
    exists ws. simpl. by rewrite IH at 1.
  - exists ws. simpl. by rewrite IH at 1.
Qed.

Lemma strip_occurs s : occurs_in (Str.strip s) s.
Proof.
  destruct (lstrip_prefix s) as [ws1 H1].
  destruct (rstrip_suffix (Str.lstrip s)) as [ws2 H2].
  exists ws1, ws2. unfold Str.strip. by rewrite <- H2.
Qed.

Lemma occurs_in_trans (a b c : str) : occurs_in a b -> occurs_in b c -> occurs_in a c.
Proof.
  intros (p1 & q1 & ->) (p2 & q2 & ->). exists (p2 ++ p1), (q1 ++ q2).
  by rewrite <- !app_assoc.
Qed.

(** Every field is a piece of what the scanner has read and will read. *)
Lemma fields_from_occurs sep cur s f :
  f ∈ Str.fields_from sep cur s -> occurs_in f (cur ++ s).
Proof.
  revert cur. induction s as [|c s IH]; intros cur; simpl.
  - destruct cur; simpl; [by intros ?%elem_of_nil|].
    intros ->%list_elem_of_singleton. exists [], []. simpl. by rewrite !app_nil_r.
  - destruct (sep c).
    + intros Hf.
      assert (f = cur \/ f ∈ Str.fields_from sep [] s) as [->|H].
      { destruct cur; simpl in Hf; [by right|].
        apply elem_of_cons in Hf as [->|Hf]; auto. }
      * by exists [], (c :: s).
      * apply IH in H as (p & q & Hs). simpl in Hs. exists (cur ++ c :: p), q.
        rewrite Hs. by rewrite <- app_assoc.
    + intros Hf%IH. by rewrite <- app_assoc in Hf.
Qed.

(** The fields of two texts joined by a separator are the fields of
    the one, then the fields of the other. *)
Lemma fields_from_join sep cur a b d :
  sep d = true ->
  Str.fields_from sep cur (a ++ d :: b) =
  Str.fields_from sep cur a ++ Str.fields_from sep [] b.
Proof.
  intros Hd. revert cur. induction a as [|c a IH]; intros cur; simpl.
  - rewrite Hd. by destruct cur.
  - destruct (sep c); [|apply IH]. rewrite IH. by destruct cur.
Qed.

Lemma fields_from_clean_text sep cur s :
  Forall (fun c => sep c = false) s ->
  Str.fields_from sep cur s = Str.emit (cur ++ s) [].
Proof.
  intros H. revert cur. induction H as [|c s Hc _ IH]; intros cur; simpl.
  - by rewrite app_nil_r.
  - rewrite Hc, IH. by rewrite <- app_assoc.
Qed.

End StrMore.

(** ** Letter case and the matcher *)

Section ReCase.

Implicit Types (r : Re.regex) (s : str) (x : ascii).

Lemma atom_match_lower (a : Re.atom) x :
  case_blind (Re.Atom a) = true ->
  Re.atom_match true a (Str.lower_chr x) = Re.atom_match true a x.
Proof.
  destruct a as [c| | |cs]; simpl; try done; intros _.
  - by rewrite lower_chr_idem.
  - apply isspace_lower_chr.
  - f_equal. apply bool_decide_ext, lower_chr_feed.
Qed.

Lemma deriv_lower r x :
  case_blind r = true -> Re.deriv true (Str.lower_chr x) r = Re.deriv true x r.
Proof.
  induction r as [| |a|r1 IH1 r2 IH2|r1 IH1 r2 IH2|r1 IH1]; try done.
  - intros H. simpl. by rewrite atom_match_lower.
  - intros [H1 H2]%andb_true_iff. simpl. by rewrite IH1, IH2.
  - intros [H1 H2]%andb_true_iff. simpl. by rewrite IH1, IH2.
  - intros H. simpl. by rewrite IH1.
Qed.

Lemma case_blind_deriv r x :
  case_blind r = true -> case_blind (Re.deriv true x r) = true.
Proof.
  induction r as [| |a|r1 IH1 r2 IH2|r1 IH1 r2 IH2|r1 IH1]; try done;
    intros H; cbn [case_blind] in H; cbn [Re.deriv].
  - by destruct (Re.atom_match true a x).
  - apply andb_true_iff in H as [H1 H2].
    destruct (Re.nullable r1); cbn [case_blind]; by rewrite ?IH1, ?H2, ?IH2.
  - apply andb_true_iff in H as [H1 H2]. cbn [case_blind]. by rewrite IH1, IH2.
  - cbn [case_blind]. by rewrite IH1, H.
Qed.

Lemma at_end_lower s : Re.at_end (Str.lower s) = Re.at_end s.
Proof.
  destruct s as [|c [|d s]]; try done. simpl.
  apply bool_decide_ext, lower_chr_feed.
Qed.

Lemma match_here_lower dollar r s :
  case_blind r = true ->
  Re.match_here true dollar r (Str.lower s) = Re.match_here true dollar r s.
Proof.
  revert r. induction s as [|x s IH]; intros r Hr; [done|].
  change (Str.lower (x :: s)) with (Str.lower_chr x :: Str.lower s).
  cbn [Re.match_here].
  change (Str.lower_chr x :: Str.lower s) with (Str.lower (x :: s)).
  rewrite at_end_lower, deriv_lower by done.
  rewrite IH; [done|]. by apply case_blind_deriv.
Qed.

Lemma search_lower (p : Re.Pattern) s :
  Re.ignorecase p = true -> case_blind (Re.body (Re.source p)) = true ->
  Re.search p (Str.lower s) = Re.search p s.
Proof.
  intros Hic Hr. unfold Re.search. rewrite Hic.
  destruct (Re.bol (Re.source p)); [by apply match_here_lower|].
  induction s as [|x s IH]; [done|].
  change (Str.lower (x :: s)) with (Str.lower_chr x :: Str.lower s).
  cbn [Re.tails existsb].
  change (Str.lower_chr x :: Str.lower s) with (Str.lower (x :: s)).
  by rewrite match_here_lower, IH.
Qed.

(** The five patterns of the detector are compiled under IGNORECASE
    and hold no character class. *)
Lemma compiled_patterns_blind (p : Re.Pattern) :
  p ∈ compiled_patterns __init__ ->
  Re.ignorecase p = true /\ case_blind (Re.body (Re.source p)) = true.
Proof.
  intros Hp. apply list_elem_of_In in Hp.
  repeat (destruct Hp as [<-|Hp]; [by vm_compute|]). destruct Hp.
Qed.

End ReCase.

(** ** Further properties of the detector *)

Lemma asks_guard self text : asks self text = true -> 3 <= length (Str.strip text).
Proof.
  intros H. destruct (decide (3 <= length (Str.strip text))) as [|Hn]; [done|].
  unfold asks, result in H. rewrite is_question_guard in H by lia. done.
Qed.

Lemma is_question_strip text self :
  is_question (Str.strip text) self = is_question text self.
Proof.
  unfold is_question. rewrite strip_idem.
  destruct (length (Str.strip text) <? 3) eqn:G.
  { by rewrite !orb_true_r. }
  apply Nat.ltb_ge in G.
  assert (Str.truthy text = true) as ->.
  { destruct text; [by rewrite strip_nil in G; simpl in G; lia|done]. }
  assert (Str.truthy (Str.strip text) = true) as ->; [|done].
  destruct (Str.strip text); [simpl in G; lia|done].
Qed.

Lemma get_question_type_strip question self :
  get_question_type (Str.strip question) self = get_question_type question self.
Proof.
  unfold get_question_type. by rewrite strip_lower, strip_idem, <- strip_lower.
Qed.

Lemma rstrip_padded s ws :
  Forall (fun c => Str.isspace c = true) ws -> Str.rstrip (s ++ ws) = Str.rstrip s.
Proof.
  intros Hws. induction s as [|c s IH]; simpl; [|by rewrite IH].
  induction Hws as [|d ws Hd _ IHws]; simpl; [done|]. by rewrite IHws, Hd.
Qed.

Lemma strip_padded ws1 s ws2 :
  Forall (fun c => Str.isspace c = true) ws1 ->
  Forall (fun c => Str.isspace c = true) ws2 ->
  Str.strip (ws1 ++ s ++ ws2) = Str.strip s.
Proof.
  intros H1 H2. unfold Str.strip.
  induction H1 as [|d ws1 Hd _ IH]; simpl; [|by rewrite Hd].
  induction s as [|c s IH]; simpl.
  - by rewrite lstrip_spaces.
  - destruct (Str.isspace c); [done|].
    by apply (rstrip_padded (c :: s)).
Qed.

(** X1: whitespace around a text is invisible to the two classifiers:
    padding the text with whitespace on either side changes neither
    what is_question returns nor what get_question_type returns. *)
Theorem X1_padding_ignored (self : QuestionDetector) (ws1 text ws2 : str) :
  Forall (fun c => Str.isspace c = true) ws1 ->
  Forall (fun c => Str.isspace c = true) ws2 ->
  result (is_question (ws1 ++ text ++ ws2)) self = result (is_question text) self /\
  result (get_question_type (ws1 ++ text ++ ws2)) self
  = result (get_question_type text) self.
Proof.
  intros H1 H2. unfold result. split.
  - rewrite <- (is_question_strip (ws1 ++ text ++ ws2)), <- (is_question_strip text).
    by rewrite strip_padded.
  - rewrite <- (get_question_type_strip (ws1 ++ text ++ ws2)).
    rewrite <- (get_question_type_strip text). by rewrite strip_padded.
Qed.

Lemma X1_padding_ignored_witness :
  result (is_question (py "  " ++ py "why not" ++ py " ")) __init__
  = result (is_question (py "why not")) __init__.
Proof.
  apply (X1_padding_ignored __init__ (py "  ") (py "why not") (py " "));
    by repeat constructor.
Defined.

Lemma existsb_search_lower (ps : list Re.Pattern) (s : str) :
  (forall p, p ∈ ps ->
     Re.ignorecase p = true /\ case_blind (Re.body (Re.source p)) = true) ->
  existsb (fun pattern => Re.search pattern (Str.lower s)) ps =
  existsb (fun pattern => Re.search pattern s) ps.
Proof.
  induction ps as [|p ps IH]; intros H; simpl; [done|].
  destruct (H p) as [Hic Hb]; [by left|].
  rewrite search_lower by done. rewrite IH; [done|].
  intros q Hq. apply H. by right.
Qed.

Lemma is_question_lower text self :
  (forall p, p ∈ compiled_patterns self ->
     Re.ignorecase p = true /\ case_blind (Re.body (Re.source p)) = true) ->
  is_question (Str.lower text) self = is_question text self.
Proof.
  intros Hps. unfold is_question.
  rewrite strip_lower, lower_length, endswith_mark_lower.
  assert (Str.truthy (Str.lower text) = Str.truthy text) as -> by by destruct text.
  destruct (_ || _); [done|]. destruct (Str.endswith _ _); [done|].
  unfold_monad. rewrite existsb_search_lower by done.
  destruct (existsb _ _); [done|].
  rewrite lower_idem, split_lower.
  destruct (Str.split (Str.strip text)) as [|w ws]; [done|].
  change ((map Str.lower (w :: ws)) !! 0) with (Some (Str.lower w)).
  change ((w :: ws) !! 0) with (Some w).
  unfold_monad. by rewrite lower_idem.
Qed.

Lemma get_question_type_lower question self :
  get_question_type (Str.lower question) self = get_question_type question self.
Proof. unfold get_question_type. by rewrite lower_idem. Qed.

(** X2: on texts of code points below 256 (the texts of type [str]
    here) the two classifiers are blind to letter case: two such texts
    that are equal once lowercased get the same answer from is_question
    and the same type from get_question_type.  Beyond that range
    [str.lower] and the folding of IGNORECASE part ways, and the
    statement is not made. *)
Theorem X2_case_ignored (text1 text2 : str) :
  Str.lower text1 = Str.lower text2 ->
  result (is_question text1) __init__ = result (is_question text2) __init__ /\
  result (get_question_type text1) __init__
  = result (get_question_type text2) __init__.
Proof.
  intros H. unfold result. split.
  - rewrite <- (is_question_lower text1), <- (is_question_lower text2)
      by apply compiled_patterns_blind.
    by rewrite H.
  - rewrite <- (get_question_type_lower text1), <- (get_question_type_lower text2).
    by rewrite H.
Qed.

Lemma X2_case_ignored_witness :
  result (is_question (py "TELL ME more")) __init__
  = result (is_question (py "tell me MORE")) __init__.
Proof.
  apply (X2_case_ignored (py "TELL ME more") (py "tell me MORE")). reflexivity.
Defined.

Lemma inverted_starters_known (x : str) :
  x ∈ ({[ py "is"; py "are"; py "was"; py "were"; py "do";
          py "does"; py "did";
          py "can"; py "could"; py "will"; py "would";
          py "should"; py "shall";
          py "may"; py "might"; py "must"; py "have"; py "has";
          py "had" ]} : gset str) ->
  x ∈ question_words __init__.
Proof.
  intros Hx. set_unfold in Hx. destruct_or!; subst x; by vm_compute.
Qed.

(** When is_question answers True, on the detector of the initializer. *)
Lemma is_question_iff (text : str) :
  result (is_question text) __init__ = inr true <->
  3 <= length (Str.strip text) /\
  (Str.endswith (Str.strip text) (py "?") = true \/
   (exists p, p ∈ compiled_patterns __init__ /\
              Re.search p (Str.strip text) = true) \/
   (exists w, head (Str.split (Str.strip text)) = Some w /\
              Str.lower w ∈ question_words __init__)).
Proof.
  unfold result. split.
  - unfold is_question.
    destruct (negb (Str.truthy text) || _) eqn:G; [done|].
    apply guard_passed in G. intros H. split; [done|].
    destruct (Str.endswith _ _); [by left|]. right. unfold_monad.
    destruct (existsb _ _) eqn:Hp.
    { left. apply existsb_exists in Hp as (p & Hin & Hp).
      exists p. by rewrite list_elem_of_In. }
    right. revert H. rewrite split_lower.
    destruct (Str.split (Str.strip text)) as [|w ws]; [done|].
    change ((w :: ws) !! 0) with (Some w). unfold_monad.
    destruct (bool_decide (Str.lower w ∈ _)) eqn:Hw.
    { intros _. exists w. split; [done|]. by apply bool_decide_eq_true in Hw. }
    destruct (2 <=? _); [|done].
    change ((map Str.lower (w :: ws)) !! 0) with (Some (Str.lower w)).
    unfold_monad.
    match goal with
    | |- context [bool_decide (Str.lower w ∈ ?S)] =>
        destruct (bool_decide (Str.lower w ∈ S)) eqn:Hi; [|done]
    end.
    apply bool_decide_eq_true, inverted_starters_known in Hi.
    apply bool_decide_eq_false in Hw. done.
  - intros [G [H|[(p & Hin & Hp)|(w & Hw & Hk)]]].
    + by rewrite is_question_mark.
    + by rewrite (is_question_pattern _ _ p).
    + destruct (Str.split (Str.strip text)) as [|w' ws] eqn:Hs; [done|].
      injection Hw as ->. by rewrite (is_question_first_word _ _ w ws).
Qed.

(** X3: is_question answers True exactly when both hold: the trimmed
    text has at least 3 characters, and at least one of these three is
    true of the trimmed text: it ends with "?"; one of the five
    compiled patterns matches it; its first token, lowercased, is one
    of the question words.  The length condition applies to all three
    alternatives.  The check for an inverted sentence structure that
    follows these never changes the answer. *)
Theorem X3_fourth_check_redundant (text : str) :
  result (is_question text) __init__ = inr true <->
  3 <= length (Str.strip text) /\
  (Str.endswith (Str.strip text) (py "?") = true \/
   (exists p, p ∈ compiled_patterns __init__ /\
              Re.search p (Str.strip text) = true) \/
   (exists w, head (Str.split (Str.strip text)) = Some w /\
              Str.lower w ∈ question_words __init__)).
Proof. exact (is_question_iff text). Qed.

Lemma startswith_shorter (s p q : str) :
  p `prefix_of` q -> Str.startswith s q = true -> Str.startswith s p = true.
Proof.
  intros Hpq Hq%bool_decide_eq_true. apply bool_decide_eq_true.
  by etrans.
Qed.

(** X4: get_question_type never answers "whom" or "whose": a text that
    starts with either starts with "who", which is tested before them. *)
Theorem X4_whom_whose_never (self : QuestionDetector) (question : str) :
  result (get_question_type question) self ≠ inr (py "whom") /\
  result (get_question_type question) self ≠ inr (py "whose").
Proof.
  unfold result, get_question_type.
  set (ql := Str.strip (Str.lower question)). cbn [List.find].
  destruct (Str.startswith ql (py "what")); [split; intros H; other_word H|].
  destruct (Str.startswith ql (py "when")); [split; intros H; other_word H|].
  destruct (Str.startswith ql (py "where")); [split; intros H; other_word H|].
  destruct (Str.startswith ql (py "who")) eqn:Hwho;
    [split; intros H; other_word H|].
  destruct (Str.startswith ql (py "whom")) eqn:Hwhom.
  { apply (startswith_shorter _ (py "who")) in Hwhom; [congruence|].
    by exists (py "m"). }
  destruct (Str.startswith ql (py "whose")) eqn:Hwhose.
  { apply (startswith_shorter _ (py "who")) in Hwhose; [congruence|].
    by exists (py "se"). }
  destruct (Str.startswith ql (py "which")); [split; intros H; other_word H|].
  destruct (Str.startswith ql (py "why")); [split; intros H; other_word H|].
  destruct (Str.startswith ql (py "how")); [split; intros H; other_word H|].
  cbv zeta.
  repeat match goal with
         | |- context [if ?b then _ else _] => destruct b
         end;
    split; intros H; other_word H.
Qed.

(** X5: the two classifiers agree on yes/no questions: a text that
    get_question_type files under "yes/no" and whose trimmed form has
    at least 3 characters is a question for is_question. *)
Theorem X5_yes_no_is_question (question : str) :
  result (get_question_type question) __init__ = inr (py "yes/no") ->
  3 <= length (Str.strip question) ->
  result (is_question question) __init__ = inr true.
Proof.
  unfold result at 1. unfold get_question_type. intros H G.
  destruct (List.find _ _) as [w|] eqn:Hf.
  { apply find_some in Hf as [Hin _]. injection H as ->.
    exfalso. simpl in Hin. repeat (destruct Hin as [Hin|Hin]; [by vm_compute in Hin|]).
    done. }
  cbv zeta in H. rewrite strip_lower, split_lower in H.
  match type of H with
  | context [bool_decide ?P] => destruct (bool_decide P) eqn:Hw
  end.
  - apply bool_decide_eq_true in Hw.
    destruct (Str.split (Str.strip question)) as [|w ws] eqn:Hs.
    { exfalso. simpl in Hw. set_unfold in Hw. destruct_or!; by vm_compute in Hw. }
    simpl in Hw. apply inverted_starters_known in Hw.
    unfold result. by rewrite (is_question_first_word _ _ w ws).
  - repeat match type of H with
           | context [if ?b then _ else _] => destruct b
           end; other_word H.
Qed.

Lemma X5_yes_no_is_question_witness :
  result (is_question (py "Could it rain")) __init__ = inr true.
Proof.
  apply (X5_yes_no_is_question (py "Could it rain")).
  - reflexivity.
  - vm_compute. lia.
Defined.

(** ** Further properties of the extraction *)

Lemma extract_questions_fields text self :
  extract_questions text self
  = (inr (kept self (Str.fields is_delimiter text)), self).
Proof. by rewrite extract_questions_run, kept_split. Qed.

Lemma kept_app self (l1 l2 : list str) :
  kept self (l1 ++ l2) = kept self l1 ++ kept self l2.
Proof. unfold kept. by rewrite fmap_app, !List.filter_app, fmap_app. Qed.

Lemma kept_elem self (pieces : list str) (q : str) :
  q ∈ kept self pieces ->
  exists piece, piece ∈ pieces /\ Str.strip piece ≠ [] /\
    asks self (Str.strip piece) = true /\
    q = with_question_mark (Str.strip piece).
Proof.
  unfold kept. intros (b & -> & Hb)%list_elem_of_fmap.
  apply list_elem_of_In, filter_In in Hb as [Hb Ha].
  apply filter_In in Hb as [Hb Ht]. apply list_elem_of_In in Hb.
  apply list_elem_of_fmap in Hb as (piece & -> & Hp).
  exists piece. repeat split; try done. by destruct (Str.strip piece).
Qed.

(** What an extracted question is made of: a trimmed, delimiter-free
    piece of the text that is_question accepts, and a question mark. *)
Lemma extracted_shape self (text q : str) :
  q ∈ kept self (Str.fields is_delimiter text) ->
  exists body, q = body ++ py "?" /\ Str.strip body = body /\ body ≠ [] /\
    asks self body = true /\
    Forall (fun c => is_delimiter c = false) body /\ occurs_in body text.
Proof.
  intros (piece & Hp & Hne & Ha & ->)%kept_elem.
  assert (Forall (fun c => is_delimiter c = false) piece) as Hclean.
  { assert (Forall (Forall (fun c => is_delimiter c = false))
              (Str.fields is_delimiter text)) as H.
    { apply (fields_from_clean is_delimiter []). constructor. }
    by eapply Forall_forall in H. }
  destruct (with_question_mark_clean piece Hclean) as [-> Hs].
  exists (Str.strip piece). repeat split; try done.
  - apply strip_idem.
  - eapply occurs_in_trans; [apply strip_occurs|].
    by apply (fields_from_occurs is_delimiter []).
Qed.

Lemma strip_question body :
  Str.strip body = body -> body ≠ [] -> Str.strip (body ++ py "?") = body ++ py "?".
Proof.
  intros Hb Hne. unfold Str.strip. rewrite lstrip_keep.
  - by apply rstrip_snoc.
  - intros c r Hc. destruct body as [|b body]; [done|].
    injection Hc as <- _. eapply strip_head. by rewrite Hb.
Qed.

(** X6: every sentence extract_questions returns is itself a question
    for is_question, on the same detector. *)
Theorem X6_extracted_are_questions (self : QuestionDetector) (text q : str)
    (qs : list str) :
  result (extract_questions text) self = inr qs -> q ∈ qs ->
  result (is_question q) self = inr true.
Proof.
  unfold result. rewrite extract_questions_fields. intros [= <-] Hq.
  apply extracted_shape in Hq as (body & -> & Hb & Hne & Ha & _).
  apply asks_guard in Ha. rewrite Hb in Ha.
  rewrite is_question_mark; [done| |].
  - rewrite strip_question by done. rewrite length_app. lia.
  - rewrite strip_question by done. apply endswith_app.
Qed.

Lemma X6_extracted_are_questions_witness :
  result (is_question (py "Tell me more?")) __init__ = inr true.
Proof.
  apply (X6_extracted_are_questions __init__
           (py "It rains. Tell me more. Now.") (py "Tell me more?")
           [py "Tell me more?"]).
  - by vm_compute.
  - by left.
Defined.

(** X7: every sentence extract_questions returns is a fixed point of
    the extraction: extracting from it returns that sentence alone. *)
Theorem X7_extraction_fixed_point (self : QuestionDetector) (text q : str)
    (qs : list str) :
  result (extract_questions text) self = inr qs -> q ∈ qs ->
  result (extract_questions q) self = inr [q].
Proof.
  unfold result. rewrite !extract_questions_fields. intros [= <-] Hq.
  apply extracted_shape in Hq as (body & -> & Hb & Hne & Ha & Hclean & _).
  simpl. f_equal. unfold Str.fields.
  rewrite (fields_from_join is_delimiter [] body [] "?"%char) by done.
  rewrite fields_from_clean_text by done. simpl.
  destruct body as [|b body]; [done|]. unfold kept. csimpl. rewrite Hb.
  simpl. rewrite Ha. csimpl. f_equal.
  pose proof (with_question_mark_clean _ Hclean) as [Hq _].
  by rewrite Hb in Hq.
Qed.

Lemma X7_extraction_fixed_point_witness :
  result (extract_questions (py "Tell me more?")) __init__
  = inr [py "Tell me more?"].
Proof.
  apply (X7_extraction_fixed_point __init__
           (py "It rains. Tell me more. Now.") (py "Tell me more?")
           [py "Tell me more?"]).
  - by vm_compute.
  - by left.
Defined.

(** X8: extract_questions invents no text: every sentence it returns
    is a piece of the input, taken as it stands there, followed by one
    question mark. *)
Theorem X8_extracted_verbatim (self : QuestionDetector) (text q : str)
    (qs : list str) :
  result (extract_questions text) self = inr qs -> q ∈ qs ->
  exists body, q = body ++ py "?" /\ occurs_in body text.
Proof.
  unfold result. rewrite extract_questions_fields. intros [= <-] Hq.
  apply extracted_shape in Hq as (body & -> & _ & _ & _ & _ & Hocc).
  by exists body.
Qed.

Lemma X8_extracted_verbatim_witness :
  exists body, py "Tell me more?" = body ++ py "?" /\
    occurs_in body (py "It rains. Tell me more. Now.").
Proof.
  apply (X8_extracted_verbatim __init__
           (py "It rains. Tell me more. Now.") (py "Tell me more?")
           [py "Tell me more?"]).
  - by vm_compute.
  - by left.
Defined.

Lemma kept_joined self (a b : str) (d : ascii) :
  is_delimiter d = true ->
  kept self (Str.fields is_delimiter (a ++ d :: b))
  = kept self (Str.fields is_delimiter a) ++ kept self (Str.fields is_delimiter b).
Proof.
  intros Hd. unfold Str.fields. rewrite fields_from_join by done.
  apply kept_app.
Qed.

Lemma asks_blank self : asks self [] = false.
Proof.
  destruct (asks self []) eqn:E; [|done].
  apply asks_guard in E. simpl in E. lia.
Qed.

Lemma kept_single_sentence self (text : str) :
  Forall (fun c => is_delimiter c = false) text ->
  kept self (Str.fields is_delimiter text)
  = if asks self text then [Str.strip text ++ py "?"] else [].
Proof.
  intros Hclean.
  unfold Str.fields. rewrite fields_from_clean_text by done. simpl.
  assert (asks self (Str.strip text) = asks self text) as Hs.
  { unfold asks, result. by rewrite is_question_strip. }
  destruct text as [|c text]; simpl Str.emit.
  { by rewrite asks_blank. }
  unfold kept. rewrite <- Hs. csimpl.
  pose proof (with_question_mark_clean _ Hclean) as [Hq _].
  destruct (Str.strip (c :: text)) as [|b body] eqn:Hb.
  { by rewrite asks_blank. }
  simpl. destruct (asks self (b :: body)); [|done]. csimpl. by f_equal.
Qed.

Lemma lstrip_snoc (s : str) (c : ascii) :
  Str.isspace c = false -> Str.lstrip (s ++ [c]) = Str.lstrip s ++ [c].
Proof.
  intros Hc. induction s as [|a s IH]; simpl; [by rewrite Hc|].
  by destruct (Str.isspace a).
Qed.

(** X9: extraction works sentence by sentence: the questions of two
    texts joined by a delimiter are the questions of the first followed
    by the questions of the second; so a delimiter added at the end of
    a text changes nothing. *)
Theorem X9_extraction_of_joined_texts (self : QuestionDetector) (a b : str)
    (d : ascii) :
  is_delimiter d = true ->
  (exists qa qb,
      result (extract_questions a) self = inr qa /\
      result (extract_questions b) self = inr qb /\
      result (extract_questions (a ++ d :: b)) self = inr (qa ++ qb)) /\
  result (extract_questions (a ++ [d])) self = result (extract_questions a) self.
Proof.
  intros Hd. unfold result. rewrite !extract_questions_fields. simpl.
  rewrite !kept_joined by done. split.
  - eexists _, _. split; [done|]. by split.
  - by rewrite app_nil_r.
Qed.

Lemma X9_extraction_of_joined_texts_witness :
  result (extract_questions (py "Why so" ++ [ "!"%char ])) __init__
  = result (extract_questions (py "Why so")) __init__.
Proof.
  apply (X9_extraction_of_joined_texts __init__ (py "Why so") (py "") "!"%char).
  reflexivity.
Defined.

(** X10: on a text without any delimiter the two operations agree:
    extract_questions returns the trimmed text with a question mark
    when is_question accepts the text, and nothing otherwise. *)
Theorem X10_single_sentence (self : QuestionDetector) (text : str) :
  Forall (fun c => is_delimiter c = false) text ->
  result (extract_questions text) self
  = inr (if asks self text then [Str.strip text ++ py "?"] else []).
Proof.
  intros Hclean. unfold result. rewrite extract_questions_fields. simpl.
  by rewrite kept_single_sentence.
Qed.

Lemma X10_single_sentence_witness :
  result (extract_questions (py " How far is it ")) __init__
  = inr (if asks __init__ (py " How far is it ")
         then [Str.strip (py " How far is it ") ++ py "?"] else []).
Proof.
  apply (X10_single_sentence __init__ (py " How far is it ")).
  apply Forall_forall. intros c Hc. vm_compute in Hc.
  repeat (apply elem_of_cons in Hc as [->|Hc]; [done|]).
  by apply elem_of_nil in Hc.
Defined.

(** X11: the question mark of a sentence is lost before the sentence
    is judged: for a delimiter-free body that is_question rejects,
    extract_questions returns nothing from the body followed by "?",
    although is_question accepts that text whenever its trimmed form
    has at least 3 characters. *)
Theorem X11_question_mark_not_seen (self : QuestionDetector) (body : str) :
  Forall (fun c => is_delimiter c = false) body ->
  asks self body = false ->
  result (extract_questions (body ++ py "?")) self = inr [] /\
  (3 <= length (Str.strip (body ++ py "?")) ->
   result (is_question (body ++ py "?")) self = inr true).
Proof.
  intros Hclean Hno. unfold result. split.
  - rewrite extract_questions_fields. simpl.
    rewrite (kept_joined self body [] "?"%char) by done.
    rewrite kept_single_sentence by done. by rewrite Hno.
  - intros G. rewrite is_question_mark; [done|done|].
    unfold Str.strip. change (py "?") with ["?"%char].
    rewrite lstrip_snoc, rstrip_snoc by done. apply endswith_app.
Qed.

Lemma X11_question_mark_not_seen_witness :
  result (extract_questions (py "Nice day" ++ py "?")) __init__ = inr [] /\
  (3 <= length (Str.strip (py "Nice day" ++ py "?")) ->
   result (is_question (py "Nice day" ++ py "?")) __init__ = inr true).
Proof.
  apply (X11_question_mark_not_seen __init__ (py "Nice day")).
  - apply Forall_forall. intros c Hc. vm_compute in Hc.
    repeat (apply elem_of_cons in Hc as [->|Hc]; [done|]).
    by apply elem_of_nil in Hc.
  - by vm_compute.
Defined.

(** ** Properties of the LLM handler and of the window's slots *)

Section Caller.

Import llm_handler window_ui.

(** X12: without a usable API key no thread is ever started: when the
    environment gives no key, an empty key or the placeholder itself,
    a handler holding the key the initializer set does exactly this.
    get_answer emits the one message "Error: OpenAI API key not
    configured. Please set your API key." to answer_ready when that
    callback is set, and does nothing when it is not;
    get_visualization emits the one message "Error: OpenAI API key not
    configured." to visualization_ready when that callback is set, and
    does nothing when it is not.  Neither starts a thread. *)
Theorem X12_no_key_no_thread (getenv : option str) (h : LLMHandler)
    (request : str) :
  getenv = None \/ getenv = Some [] \/ getenv = Some PLACEHOLDER ->
  api_key h = api_key (llm_handler.__init__ getenv) ->
  get_answer h request
  = match answer_ready h with
    | Some target =>
        [Emit target
           (py "Error: OpenAI API key not configured. Please set your API key.")]
    | None => []
    end /\
  get_visualization h request
  = match visualization_ready h with
    | Some target => [Emit target (py "Error: OpenAI API key not configured.")]
    | None => []
    end /\
  Forall (fun e => starts_thread e = false)
    (get_answer h request ++ get_visualization h request) /\
  (answer_ready h = None -> get_answer h request = []) /\
  (visualization_ready h = None -> get_visualization h request = []).
Proof.
  intros Henv Hkey.
  assert (api_key h = Some PLACEHOLDER) as Hp.
  { rewrite Hkey. by destruct Henv as [->|[->| ->]]. }
  unfold get_answer, get_visualization. rewrite Hp.
  rewrite bool_decide_eq_true_2, orb_true_r by done.
  split; [done|]. split; [done|]. split; [|split].
  - destruct (answer_ready h), (visualization_ready h); by repeat constructor.
  - by intros ->.
  - by intros ->.
Qed.

Lemma X12_no_key_no_thread_witness :
  get_answer
    {| api_key := api_key (llm_handler.__init__ None);
       subject := py "Physics";
       answer_ready := Some (Signal 1);
       visualization_ready := None |}
    (py "Why is the sky blue")
  = [Emit (Signal 1)
       (py "Error: OpenAI API key not configured. Please set your API key.")].
Proof.
  apply (X12_no_key_no_thread None
           {| api_key := api_key (llm_handler.__init__ None);
              subject := py "Physics";
              answer_ready := Some (Signal 1);
              visualization_ready := None |}
           (py "Why is the sky blue")).
  - by left.
  - reflexivity.
Defined.

(** X13: with a key from the environment (not empty, not the
    placeholder) get_answer starts exactly one LLM thread, for the
    question as given, the subject last set by set_subject, and that
    key, connected to the handler's callback; get_visualization does
    the same with a visualization thread. *)
Theorem X13_key_starts_one_thread (key : str) (h : LLMHandler)
    (new_subject request : str) :
  key ≠ [] -> key ≠ PLACEHOLDER ->
  api_key h = api_key (llm_handler.__init__ (Some key)) ->
  get_answer (set_subject h new_subject) request
  = [StartLLMThread request new_subject key (answer_ready h)] /\
  get_visualization (set_subject h new_subject) request
  = [StartVisualizationThread request new_subject key (visualization_ready h)].
Proof.
  intros Hne Hph Hkey.
  assert (api_key h = Some key) as Hk.
  { rewrite Hkey. unfold llm_handler.__init__. by destruct key. }
  unfold get_answer, get_visualization, set_subject. simpl. rewrite Hk. simpl.
  assert (Str.truthy key = true) as -> by by destruct key.
  rewrite bool_decide_eq_false_2 by congruence. done.
Qed.

Lemma X13_key_starts_one_thread_witness :
  get_answer (set_subject (llm_handler.__init__ (Some (py "sk-1"))) (py "Physics"))
    (py "What is mass")
  = [StartLLMThread (py "What is mass") (py "Physics") (py "sk-1") None].
Proof.
  apply (X13_key_starts_one_thread (py "sk-1")
           (llm_handler.__init__ (Some (py "sk-1"))) (py "Physics")
           (py "What is mass")).
  - discriminate.
  - intros H. by vm_compute in H.
  - reflexivity.
Defined.

(** What on_transcription does, by the answer of the detector. *)
Lemma on_transcription_run (w : MainWindow) (text : str) :
  on_transcription w text =
  if is_listening w && asks (question_detector w) text
  then (None,
        {| current_question := Some text;
           current_answer := current_answer w;
           is_listening := is_listening w;
           question_detector := question_detector w;
           llm_handler := llm_handler w;
           transcription_area := transcription_area w ++ [text];
           status_label := py "Status: Processing question...";
           answer_notification := answer_notification w;
           qa_content_layout := qa_content_layout w |},
        get_answer (llm_handler w) text)
  else (None,
        {| current_question := current_question w;
           current_answer := current_answer w;
           is_listening := is_listening w;
           question_detector := question_detector w;
           llm_handler := llm_handler w;
           transcription_area := transcription_area w ++ [text];
           status_label := status_label w;
           answer_notification := answer_notification w;
           qa_content_layout := qa_content_layout w |},
        []).
Proof.
  unfold on_transcription. destruct (is_listening w); [|done].
  rewrite is_question_asks. simpl.
  by destruct (asks (question_detector w) text).
Qed.


(** X15: a transcription whose trimmed form has fewer than 3
    characters never reaches the LLM handler and never replaces the
    current question, whether the window is listening or not. *)
Theorem X15_short_transcription_dropped (w : MainWindow) (text : str) :
  length (Str.strip text) < 3 ->
  exists w', on_transcription w text = (None, w', []) /\
    current_question w' = current_question w /\
    status_label w' = status_label w.
Proof.
  intros H. rewrite on_transcription_run.
  assert (asks (question_detector w) text = false) as ->.
  { unfold asks, result. by rewrite is_question_guard. }
  rewrite andb_false_r. by eexists.
Qed.

(** X16: from the microphone to the LLM: while the window listens, with
    the detector of the initializer and a usable key, a transcription
    whose trimmed form has at least 3 characters and ends with "?"
    becomes the current question and starts exactly one LLM thread,
    for the text as transcribed (not trimmed), the handler's subject
    and its key. *)
Theorem X16_question_reaches_llm (w : MainWindow) (text key : str) :
  is_listening w = true ->
  api_key (llm_handler w) = Some key -> key ≠ [] -> key ≠ PLACEHOLDER ->
  3 <= length (Str.strip text) ->
  Str.endswith (Str.strip text) (py "?") = true ->
  exists w', on_transcription w text
    = (None, w',
       [StartLLMThread text (subject (llm_handler w)) key
          (answer_ready (llm_handler w))]) /\
    current_question w' = Some text /\
    status_label w' = py "Status: Processing question...".
Proof.
  intros Hl Hk Hne Hph G Hq. rewrite on_transcription_run, Hl.
  assert (asks (question_detector w) text = true) as ->.
  { unfold asks, result. by rewrite is_question_mark. }
  assert (get_answer (llm_handler w) text
          = [StartLLMThread text (subject (llm_handler w)) key
               (answer_ready (llm_handler w))]) as ->.
  { unfold get_answer. rewrite Hk. simpl.
    assert (Str.truthy key = true) as -> by by destruct key.
    by rewrite bool_decide_eq_false_2 by congruence. }
  simpl. by eexists.
Qed.

(** X17: an answer is shown at most once: show_answer a second time
    changes nothing, show_answer after ignore_question changes nothing,
    and one call adds at most one entry to the Q&A list. *)
Theorem X17_answer_shown_once (w : MainWindow) :
  show_answer (show_answer w) = show_answer w /\
  show_answer (ignore_question w) = ignore_question w /\
  length (qa_content_layout (show_answer w)) <= S (length (qa_content_layout w)) /\
  (current_question (show_answer w) = None \/ show_answer w = w).
Proof.
  unfold show_answer, ignore_question.
  destruct (truthy_opt (current_question w) && truthy_opt (current_answer w)) eqn:E;
    simpl; rewrite ?E; repeat split; auto.
  rewrite length_app. simpl. lia.
Qed.

(** X18: when a question is pending, an answer that arrives and is not
    empty is shown with that question: show_answer appends the pair to
    the Q&A list, clears both and hides the notification.  An empty
    answer is never shown: show_answer leaves the window as
    on_answer_ready left it, the notification still visible. *)
Theorem X18_answer_display (w : MainWindow) (question answer : str) :
  current_question w = Some question -> question ≠ [] ->
  (answer ≠ [] ->
   let w' := show_answer (on_answer_ready w answer) in
   qa_content_layout w' = qa_content_layout w ++ [(question, answer)] /\
   current_question w' = None /\ current_answer w' = None /\
   answer_notification w' = false) /\
  show_answer (on_answer_ready w []) = on_answer_ready w [] /\
  answer_notification (show_answer (on_answer_ready w [])) = true.
Proof.
  intros Hq Hne. unfold show_answer, on_answer_ready. simpl. rewrite Hq. simpl.
  assert (Str.truthy question = true) as -> by by destruct question.
  split; [|done]. intros Ha.
  assert (Str.truthy answer = true) as -> by by destruct answer.
  done.
Qed.

End Caller.

Lemma X15_short_transcription_dropped_witness :
  exists w',
    window_ui.on_transcription
      {| window_ui.current_question := None;
         window_ui.current_answer := None;
         window_ui.is_listening := true;
         window_ui.question_detector := __init__;
         window_ui.llm_handler := llm_handler.__init__ (Some (py "sk-1"));
         window_ui.transcription_area := [];
         window_ui.status_label := py "Status: Listening...";
         window_ui.answer_notification := false;
         window_ui.qa_content_layout := [] |}
      (py " a? ")
    = (None, w', []) /\
    window_ui.current_question w' = None /\
    window_ui.status_label w' = py "Status: Listening...".
Proof.
  match goal with
  | |- exists w', window_ui.on_transcription ?w _ = _ /\ _ =>
      apply (X15_short_transcription_dropped w (py " a? "))
  end.
  vm_compute. lia.
Defined.

Lemma X16_question_reaches_llm_witness :
  exists w',
    window_ui.on_transcription
      {| window_ui.current_question := None;
         window_ui.current_answer := None;
         window_ui.is_listening := true;
         window_ui.question_detector := __init__;
         window_ui.llm_handler :=
           llm_handler.set_subject (llm_handler.__init__ (Some (py "sk-1")))
             (py "Physics");
         window_ui.transcription_area := [];
         window_ui.status_label := py "Status: Listening...";
         window_ui.answer_notification := false;
         window_ui.qa_content_layout := [] |}
      (py " So it floats? ")
    = (None, w',
       [StartLLMThread (py " So it floats? ") (py "Physics") (py "sk-1") None]) /\
    window_ui.current_question w' = Some (py " So it floats? ") /\
    window_ui.status_label w' = py "Status: Processing question...".
Proof.
  match goal with
  | |- exists w', window_ui.on_transcription ?w _ = _ /\ _ =>
      apply (X16_question_reaches_llm w (py " So it floats? ") (py "sk-1"))
  end.
  - reflexivity.
  - reflexivity.
  - discriminate.
  - intros H. by vm_compute in H.
  - vm_compute. lia.
  - by vm_compute.
Defined.

Lemma X18_answer_display_witness :
  window_ui.qa_content_layout
    (window_ui.show_answer
       (window_ui.on_answer_ready
          {| window_ui.current_question := Some (py "Why?");
             window_ui.current_answer := None;
             window_ui.is_listening := true;
             window_ui.question_detector := __init__;
             window_ui.llm_handler := llm_handler.__init__ None;
             window_ui.transcription_area := [py "Why?"];
             window_ui.status_label := py "Status: Processing question...";
             window_ui.answer_notification := false;
             window_ui.qa_content_layout := [] |}
          (py "Because.")))
  = [] ++ [(py "Why?", py "Because.")].
Proof.
  match goal with
  | |- context [window_ui.on_answer_ready ?w _] =>
      apply (X18_answer_display w (py "Why?") (py "Because."))
  end.
  - reflexivity.
  - discriminate.
  - discriminate.
Defined.

(** ** One-word utterances *)

Lemma lang_plus_space_elem (ic : bool) (u : str) :
  lang ic (Re.Plus (Re.Atom Re.Space)) u ->
  exists c, c ∈ u /\ Str.isspace c = true.
Proof.
  unfold Re.Plus. inversion 1 as [| |? ? u1 u2 H1 H2| | | |]; subst.
  inversion H1; subst. exists x. split; [by left|done].
Qed.

(** Each of the five patterns needs a whitespace character in the text,
    or a question mark at its end. *)
Lemma pattern_needs_space_or_mark (p : Re.Pattern) (s : str) :
  p ∈ compiled_patterns __init__ -> Re.search p s = true ->
  (exists c, c ∈ s /\ Str.isspace c = true) \/ Str.endswith s (py "?") = true.
Proof.
  intros Hp (pre & u & v & -> & _ & Hu & Hv)%search_spec.
  apply list_elem_of_In in Hp.
  unfold __init__ in Hp. cbn [compiled_patterns map In] in Hp.
  destruct Hp as [<-|[<-|[<-|[<-|[<-|[]]]]]];
    cbn [Re.compile_IGNORECASE Re.source Re.body Re.eol Re.ignorecase] in Hu, Hv.
  - inversion Hu as [|a x Hx| | | | |]; subst. simpl in Hx.
    apply bool_decide_eq_true, lower_chr_mark in Hx as ->.
    specialize (Hv eq_refl). destruct v as [|c [|??]]; try done.
    + right. apply bool_decide_eq_true. exists pre. by rewrite app_nil_r.
    + left. exists c. apply bool_decide_eq_true in Hv as ->.
      split; [|done]. rewrite !elem_of_app. right. right. by left.
  - left. inversion Hu as [| |? ? u1 u2 H1 H2| | | |]; subst.
    apply lang_plus_space_elem in H2 as (c & Hc & Hs).
    exists c. split; [|done]. rewrite !elem_of_app. auto.
  - left. inversion Hu as [| |? ? u1 u2 H1 H2| | | |]; subst.
    apply lang_plus_space_elem in H2 as (c & Hc & Hs).
    exists c. split; [|done]. rewrite !elem_of_app. auto.
  - left. inversion Hu as [| |? ? u1 u2 H1 H2| | | |]; subst.
    apply lang_plus_space_elem in H2 as (c & Hc & Hs).
    exists c. split; [|done]. rewrite !elem_of_app. auto.
  - left. inversion Hu as [| |? ? u1 u2 H1 H2| | | |]; subst.
    inversion H2 as [| |? ? u3 u4 H3 H4| | | |]; subst.
    apply lang_plus_space_elem in H3 as (c & Hc & Hs).
    exists c. split; [|done]. rewrite !elem_of_app. auto.
Qed.

(** X19: a one-word utterance is a question only by its question mark
    or by being a question word: for a text whose trimmed form holds no
    whitespace and does not end with "?", is_question answers True
    exactly when that word has at least 3 characters and its lowercase
    is one of the question words; no pattern can match it. *)
Theorem X19_one_word (text : str) :
  Forall (fun c => Str.isspace c = false) (Str.strip text) ->
  Str.endswith (Str.strip text) (py "?") = false ->
  (result (is_question text) __init__ = inr true <->
   3 <= length (Str.strip text) /\
   Str.lower (Str.strip text) ∈ question_words __init__).
Proof.
  intros Hone Hmark.
  assert (3 <= length (Str.strip text) ->
          Str.split (Str.strip text) = [Str.strip text]) as Hs.
  { intros G. unfold Str.split, Str.fields.
    rewrite fields_from_clean_text by done. simpl.
    destruct (Str.strip text); [simpl in G; lia|done]. }
  rewrite is_question_iff. split.
  - intros [G [H|[(p & Hp & H)|(w & Hw & Hk)]]]; [congruence| |].
    + apply pattern_needs_space_or_mark in H as [(c & Hc & Hsp)|H];
        [|congruence|done].
      eapply Forall_forall in Hone; [|done]. congruence.
    + rewrite Hs in Hw by done. by injection Hw as <-.
  - intros [G Hk]. split; [done|]. right. right.
    exists (Str.strip text). by rewrite Hs.
Qed.

Lemma X19_one_word_witness :
  result (is_question (py "whatever")) __init__ = inr true <->
  3 <= length (Str.strip (py "whatever")) /\
  Str.lower (Str.strip (py "whatever")) ∈ question_words __init__.
Proof.
  apply (X19_one_word (py "whatever")).
  - by repeat constructor.
  - by vm_compute.
Defined.
